(** * gliderpy.fetchers: a shallow embedding and its verified properties

    The development follows [gliderpy/fetchers.py]:

    - [Py]       the Python built-ins the module relies on ([str.lower],
                 [str.endswith], [str.split], [list.remove], [str.join]);
    - [Pandas]   the part of the pandas [DataFrame] interface that the module
                 calls: column relabelling, [rename], column assignment,
                 boolean row selection, and what [concat] is built from;
    - [Run]      exceptions, the ERDDAP client object, and the
                 state-and-error monad in which the methods run: the
                 receiver, the store of table objects and the log of network
                 requests are threaded explicitly;
    - [Frames]   the pandas operations that can raise;
    - [Services] what the module imports and does not define: the tables of
                 [gliderpy/servers.py], the URL builders of the ERDDAP client
                 and the answers of the network, as a class;
    - [Fetchers] [standardise_df], [GliderDataFetcher] and [DatasetList];
    - [Sample]   a small server to run the methods on.

    The properties follow the definitions. *)

From Stdlib Require Import Ascii String List Bool Arith Lia.
From stdpp Require Import base option list strings gmap.

Local Open Scope string_scope.
Local Open Scope list_scope.

(** ** Python built-ins *)

Module Py.

(** [str.lower] on the ASCII range: the letters [A]..[Z] are moved to
    [a]..[z], every other character is kept. *)
Definition lower_ascii (c : ascii) : ascii :=
  let n := nat_of_ascii c in
  if Nat.leb 65 n && Nat.leb n 90 then ascii_of_nat (n + 32) else c.

Fixpoint str_lower (s : string) : string :=
  match s with
  | EmptyString => EmptyString
  | String c r => String (lower_ascii c) (str_lower r)
  end.

(** [s.endswith(suffix)]. *)
Definition str_endswith (s suffix : string) : bool :=
  let n := String.length s in
  let k := String.length suffix in
  Nat.leb k n && String.eqb (substring (n - k) k s) suffix.

(** [s.split(sep)[0]] for a one-character separator: the text before the
    first occurrence of [sep], the whole of [s] when there is none. *)
Fixpoint split_head (sep : ascii) (s : string) : string :=
  match s with
  | EmptyString => EmptyString
  | String c r => if Ascii.eqb c sep then EmptyString else String c (split_head sep r)
  end.

(** [l.remove(x)]: drops the first occurrence of [x]; [None] stands for the
    [ValueError] raised when [x] does not occur. *)
Fixpoint list_remove {A : Type} `{EqDecision A} (x : A) (l : list A) : option (list A) :=
  match l with
  | [] => None
  | y :: r => if decide (y = x) then Some r
              else match list_remove x r with
                   | Some r' => Some (y :: r')
                   | None => None
                   end
  end.

(** [sep.join(l)]. *)
Fixpoint str_join (sep : string) (l : list string) : string :=
  match l with
  | [] => ""
  | [x] => x
  | x :: r => x +:+ sep +:+ str_join sep r
  end.

End Py.

(** ** The pandas interface used by the module *)

Module Pandas.

(** A cell of a table: a text value, or the missing value pandas writes
    [NaN]. *)
Inductive cell : Type :=
  | CStr (s : string)
  | CNaN.

#[global] Instance cell_eq_dec : EqDecision cell.
Proof. solve_decision. Defined.

(** [str(v)] of a cell, as an f-string interpolates it. *)
Definition cell_str (v : cell) : string :=
  match v with
  | CStr s => s
  | CNaN => "nan"
  end.

(** A [DataFrame], column-major.  [data] lists the columns in order, each
    with its label; labels may repeat, as pandas allows.  [index] holds the
    row labels and [index_name] the name of the index. *)
Record DataFrame : Type := mkDataFrame {
  data : list (string * list cell);
  index_name : option string;
  index : list string;
}.

(** [df.columns] *)
Definition columns (d : DataFrame) : list string := map fst (data d).

(** [len(df)] *)
Definition nrows (d : DataFrame) : nat := length (index d).

(** Every column has one cell per row. *)
Definition wf (d : DataFrame) : Prop :=
  Forall (fun c => length (snd c) = nrows d) (data d).

(** [df.columns = [f(c) for c in df.columns]] *)
Definition relabel (f : string -> string) (d : DataFrame) : DataFrame :=
  {| data := map (fun c => (f (fst c), snd c)) (data d);
     index_name := index_name d;
     index := index d |}.

(** [df.columns = df.columns.str.lower()] *)
Definition columns_lower (d : DataFrame) : DataFrame := relabel Py.str_lower d.

(** The label a mapping gives to [c]: labels that are not keys stay. *)
Definition rename_label (m : gmap string string) (c : string) : string :=
  default c (m !! c).

(** [df.rename(columns=m, inplace=True)] *)
Definition rename_columns (m : gmap string string) (d : DataFrame) : DataFrame :=
  relabel (rename_label m) d.

(** [df.index.rename(name, inplace=True)] *)
Definition rename_index (name : string) (d : DataFrame) : DataFrame :=
  {| data := data d; index_name := Some name; index := index d |}.

Definition has_column (label : string) (d : DataFrame) : bool :=
  existsb (String.eqb label) (columns d).

(** Overwrites every column labelled [label] with [vals]. *)
Definition overwrite (label : string) (vals : list cell)
    (cs : list (string * list cell)) : list (string * list cell) :=
  map (fun c => if String.eqb (fst c) label then (fst c, vals) else c) cs.

(** [df[label] = vals] for a full column of values: an existing label is
    overwritten (all of its columns when the label repeats), a new label is
    appended as the last column. *)
Definition setitem (label : string) (vals : list cell) (d : DataFrame) : DataFrame :=
  {| data := if has_column label d then overwrite label vals (data d)
             else data d ++ [(label, vals)];
     index_name := index_name d;
     index := index d |}.

(** [df[label] = v] for a scalar: the value is broadcast to every row. *)
Definition setitem_scalar (label : string) (v : cell) (d : DataFrame) : DataFrame :=
  setitem label (replicate (nrows d) v) d.

(** The columns labelled [label], in order. *)
Definition columns_named (label : string) (d : DataFrame) : list (string * list cell) :=
  filter (fun c => fst c = label) (data d).

(** The cell of row [i] in the first column labelled [label]. *)
Definition cell_at (d : DataFrame) (label : string) (i : nat) : option cell :=
  match columns_named label d with
  | c :: _ => snd c !! i
  | [] => None
  end.

(** A rename table is canonical when its targets are final, that is
    lower-case and not renamed again, and when it leaves the label
    [dataset_url] alone. *)
Definition canonical (m : gmap string string) : Prop :=
  (∀ k v, m !! k = Some v → Py.str_lower v = v ∧ rename_label m v = v)
  ∧ rename_label m "dataset_url" = "dataset_url".

(** What [df[label]] evaluates to: a [Series] when one column carries the
    label, a [DataFrame] of all of them when the label repeats. *)
Inductive item : Type :=
  | Series (vals : list cell)
  | Frame (d : DataFrame).

(** Iterating an item: a [Series] yields its values, a [DataFrame] its
    column labels. *)
Definition iter_item (it : item) : list cell :=
  match it with
  | Series vals => vals
  | Frame d => map CStr (columns d)
  end.

(** Keeps the entries of [l] whose position is marked in [mask]. *)
Fixpoint select_mask {A : Type} (mask : list bool) (l : list A) : list A :=
  match mask, l with
  | b :: mask', x :: l' => if b then x :: select_mask mask' l' else select_mask mask' l'
  | _, _ => []
  end.

(** [df.loc[mask]] for a boolean mask with one entry per row: a new table
    with the marked rows, in their order, under their row labels. *)
Definition loc_mask (mask : list bool) (d : DataFrame) : DataFrame :=
  {| data := map (fun c => (fst c, select_mask mask (snd c))) (data d);
     index_name := index_name d;
     index := select_mask mask (index d) |}.

Definition is_nan (v : cell) : bool :=
  match v with
  | CNaN => true
  | CStr _ => false
  end.

(** The labels of a list of tables in order of first appearance. *)
Definition union_labels (ds : list DataFrame) : list string :=
  fold_left (fun acc c => if decide (c ∈ acc) then acc else acc ++ [c])
            (concat (map columns ds)) [].

(** The values a table contributes to column [label] of a concatenation: its
    own column, or missing values for each of its rows. *)
Definition column_or_nan (label : string) (d : DataFrame) : list cell :=
  match columns_named label d with
  | c :: _ => snd c
  | [] => replicate (nrows d) CNaN
  end.

(** The [j]-th column of each table, one after the other. *)
Definition stack_at (j : nat) (ds : list DataFrame) : list cell :=
  concat (map (fun d => default [] (snd <$> data d !! j)) ds).

(** The index name of a concatenation: the common name, if there is one. *)
Definition consensus_name (ds : list DataFrame) : option string :=
  match ds with
  | [] => None
  | d0 :: r => if forallb (fun d => bool_decide (index_name d = index_name d0)) r
               then index_name d0 else None
  end.

End Pandas.

(** ** Exceptions and the monad of the methods *)

Module Run.
Import Pandas.

Inductive exn : Type :=
  | ValueError (msg : string)
  | KeyError (key : string)
  | TypeError (msg : string)
  | AttributeError (msg : string)
  | InvalidIndexError (msg : string)
  | HTTPError (msg : string)                   (* httpx.HTTPError *)
  | ExceptionFrom (msg : string) (cause : exn) (* raise Exception(msg) from cause *)
  | OtherError (msg : string).                 (* anything else an external call raises *)

(** The result of an evaluation: a value, or a raised exception. *)
Inductive Res (A : Type) : Type :=
  | Ok (a : A)
  | Raise (e : exn).
Arguments Ok {A} a.
Arguments Raise {A} e.

(** A query bound as the caller passes it (a number, a string, a datetime).
    The module stores bounds, hands them to the client and formats them into
    an error message; a bound is carried as its [repr] text. *)
Record bound : Type := mkBound { bound_repr : string }.

(** The [erddapy.ERDDAP] client object: the attributes the module reads or
    writes. *)
Record ERDDAP : Type := mkERDDAP {
  server : string;
  protocol : string;
  variables : option (list string);
  dataset_id : option cell;
  constraints : option (list (string * bound));
}.

(** Network requests, as they are logged. *)
Inductive event : Type :=
  | EvSearch (url : string)   (* urlopen(url) on a catalog-search URL *)
  | EvTable (e : ERDDAP).     (* e.to_pandas(...): a tabledap download *)

(** A reference to a table object. *)
Definition ref : Type := nat.

(** What lives outside the receiver: the table objects, addressed by
    reference, and the log of network requests, oldest first. *)
Record World : Type := mkWorld {
  heap : list DataFrame;
  log : list event;
}.

(** A method of a receiver of type [S]: it may update the receiver and the
    world, and returns or raises.  A raised exception keeps the state as it
    was when it was raised. *)
Definition M (S A : Type) : Type := S -> World -> Res A * S * World.

Definition ret {S A} (a : A) : M S A := fun s w => (Ok a, s, w).

Definition bind {S A B} (m : M S A) (k : A -> M S B) : M S B :=
  fun s w =>
    match m s w with
    | (Ok a, s', w') => k a s' w'
    | (Raise e, s', w') => (Raise e, s', w')
    end.

Definition raise {S A} (e : exn) : M S A := fun s w => (Raise e, s, w).

(** Returns or raises as [r] says. *)
Definition lift {S A} (r : Res A) : M S A := fun s w => (r, s, w).

Definition get_self {S} : M S S := fun s w => (Ok s, s, w).

Definition modify_self {S} (f : S -> S) : M S unit := fun s w => (Ok tt, f s, w).

(** Creates a table object and returns its reference. *)
Definition alloc {S} (d : DataFrame) : M S ref :=
  fun s w => (Ok (length (heap w)), s, {| heap := heap w ++ [d]; log := log w |}).

(** Reads the table behind a reference. *)
Definition deref {S} (r : ref) : M S DataFrame :=
  fun s w =>
    match heap w !! r with
    | Some d => (Ok d, s, w)
    | None => (Raise (OtherError "dangling reference"), s, w)
    end.

(** Updates the table behind a reference in place: every holder of the
    reference sees the change. *)
Definition update {S} (r : ref) (f : DataFrame -> DataFrame) : M S unit :=
  fun s w =>
    match heap w !! r with
    | Some d => (Ok tt, s, {| heap := <[r := f d]> (heap w); log := log w |})
    | None => (Raise (OtherError "dangling reference"), s, w)
    end.

(** Records a network request. *)
Definition emit {S} (ev : event) : M S unit :=
  fun s w => (Ok tt, s, {| heap := heap w; log := log w ++ [ev] |}).

(** [try: m except httpx.HTTPError as err: h err]; other exceptions pass. *)
Definition try_except_http {S A} (m : M S A) (h : exn -> M S A) : M S A :=
  fun s w =>
    match m s w with
    | (Raise (HTTPError msg), s', w') => h (HTTPError msg) s' w'
    | out => out
    end.

Declare Scope run_scope.
Delimit Scope run_scope with run.
Notation "x <- m ;; k" := (bind m (fun x => k))
  (at level 100, m at next level, right associativity) : run_scope.
Notation "m ;;; k" := (bind m (fun _ => k))
  (at level 100, right associativity) : run_scope.

End Run.

(** ** pandas operations that can raise *)

Module Frames.
Import Pandas Run.

(** [df[label]]: [KeyError] when no column carries the label. *)
Definition getitem (label : string) (d : DataFrame) : Res item :=
  match columns_named label d with
  | [] => Raise (KeyError label)
  | [c] => Ok (Series (snd c))
  | cs => Ok (Frame {| data := cs; index_name := index_name d; index := index d |})
  end.

(** [df[[l1, ..., ln]]]: a new table with, for each label in turn, the
    columns that carry it; [KeyError] at the first label that no column
    carries. *)
Fixpoint columns_of (labels : list string) (d : DataFrame)
    : Res (list (string * list cell)) :=
  match labels with
  | [] => Ok []
  | l :: r =>
      match columns_named l d with
      | [] => Raise (KeyError l)
      | cs => match columns_of r d with
              | Ok cs' => Ok (cs ++ cs')
              | Raise e => Raise e
              end
      end
  end.

Definition getitem_list (labels : list string) (d : DataFrame) : Res DataFrame :=
  match columns_of labels d with
  | Ok cs => Ok {| data := cs; index_name := index_name d; index := index d |}
  | Raise e => Raise e
  end.

(** [~it.str.endswith(suffix)]: the rows whose text does not end in
    [suffix].  The [.str] accessor exists on a [Series] of text only, and a
    missing value among texts has no [~]. *)
Definition not_endswith (suffix : string) (it : item) : Res (list bool) :=
  match it with
  | Frame _ => Raise (AttributeError "'DataFrame' object has no attribute 'str'")
  | Series vals =>
      if existsb is_nan vals then
        if forallb is_nan vals
        then Raise (AttributeError "Can only use .str accessor with string values!")
        else Raise (TypeError "bad operand type for unary ~: 'float'")
      else Ok (map (fun v => negb (Py.str_endswith (cell_str v) suffix)) vals)
  end.

(** [it.to_list()] *)
Definition to_list (it : item) : Res (list cell) :=
  match it with
  | Series vals => Ok vals
  | Frame _ => Raise (AttributeError "'DataFrame' object has no attribute 'to_list'")
  end.

(** [df[label] = vals] for a Python list: its length must be the number of
    rows. *)
Definition setitem_list (label : string) (vals : list cell) (d : DataFrame)
    : Res DataFrame :=
  if Nat.eqb (length vals) (nrows d) then Ok (setitem label vals d)
  else Raise (ValueError "Length of values does not match length of index").

Definition unique_labels (d : DataFrame) : bool := bool_decide (NoDup (columns d)).

(** [pd.concat(ds)]: the tables one under the other, in the order of [ds].
    Tables with the same labels are stacked column by column.  Otherwise
    the result has the union of the labels and a table without a column
    contributes missing values, which needs every table's labels to be
    distinct. *)
Definition pd_concat (ds : list DataFrame) : Res DataFrame :=
  match ds with
  | [] => Raise (ValueError "No objects to concatenate")
  | d0 :: _ =>
      if forallb (fun d => bool_decide (columns d = columns d0)) ds then
        Ok {| data := imap (fun j c => (fst c, stack_at j ds)) (data d0);
              index_name := consensus_name ds;
              index := concat (map index ds) |}
      else if forallb unique_labels ds then
        Ok {| data := map (fun l => (l, concat (map (column_or_nan l) ds)))
                          (union_labels ds);
              index_name := consensus_name ds;
              index := concat (map index ds) |}
      else Raise (InvalidIndexError
                    "Reindexing only valid with uniquely valued Index objects")
  end.

End Frames.

(** ** What the module imports *)

Module Services.
Import Pandas Run.

(** The names [fetchers.py] takes from outside: the two tables of
    [gliderpy/servers.py], the URL builders of the ERDDAP client, and the
    answers of the network.  None of them is defined in the module. *)
Class Services : Type := mkServices {
  (** [gliderpy.servers.server_parameter_rename] *)
  server_parameter_rename : gmap string string;
  (** [gliderpy.servers.server_vars] *)
  server_vars : gmap string (list string);
  (** [e.get_search_url(search_for=, response=, min_lat=, ..., max_time=)] *)
  get_search_url : ERDDAP -> string -> string ->
                   bound -> bound -> bound -> bound -> bound -> bound -> string;
  (** [e.get_info_url(dataset_id=, response=)] *)
  get_info_url : ERDDAP -> cell -> string -> string;
  (** [e.get_download_url()] *)
  get_download_url : ERDDAP -> string;
  (** the table (or the failure) that [e.to_pandas(index_col=...)] gets *)
  tabledap : ERDDAP -> option string -> Res DataFrame;
  (** the body (or the failure) that [urlopen(url)] gets *)
  urlopen : string -> Res string;
  (** [pd.read_csv(body)] *)
  read_csv : string -> Res DataFrame;
}.

End Services.

(** ** The module [gliderpy.fetchers] *)

Module Fetchers.
Import Pandas Run Frames Services.
Local Open Scope run_scope.

(** Defaults to the IOOS glider DAC. *)
Definition _server : string := "https://gliders.ioos.us/erddap".

(** The attributes of a [GliderDataFetcher]. *)
Record GliderDataFetcher : Type := mkGliderDataFetcher {
  server : string;
  fetcher : ERDDAP;
  datasets : option ref;
  query_url : option string;
}.

(** The attributes of a [DatasetList]. *)
Record DatasetList : Type := mkDatasetList {
  e : ERDDAP;
  dataset_ids : option (list cell);
}.

(** Attribute assignments. *)
Definition set_dataset_id (v : option cell) (c : ERDDAP) : ERDDAP :=
  {| Run.server := Run.server c; protocol := protocol c; variables := variables c;
     dataset_id := v; constraints := constraints c |}.

Definition set_constraints (v : list (string * bound)) (c : ERDDAP) : ERDDAP :=
  {| Run.server := Run.server c; protocol := protocol c; variables := variables c;
     dataset_id := dataset_id c; constraints := Some v |}.

Definition set_variables (v : list string) (c : ERDDAP) : ERDDAP :=
  {| Run.server := Run.server c; protocol := protocol c; variables := Some v;
     dataset_id := dataset_id c; constraints := constraints c |}.

Definition with_fetcher (f : ERDDAP -> ERDDAP) (self : GliderDataFetcher)
    : GliderDataFetcher :=
  {| server := server self; fetcher := f (fetcher self);
     datasets := datasets self; query_url := query_url self |}.

Definition set_datasets (v : option ref) (self : GliderDataFetcher)
    : GliderDataFetcher :=
  {| server := server self; fetcher := fetcher self;
     datasets := v; query_url := query_url self |}.

Definition set_query_url (v : string) (self : GliderDataFetcher)
    : GliderDataFetcher :=
  {| server := server self; fetcher := fetcher self;
     datasets := datasets self; query_url := Some v |}.

Definition with_e (f : ERDDAP -> ERDDAP) (self : DatasetList) : DatasetList :=
  {| e := f (e self); dataset_ids := dataset_ids self |}.

Definition set_dataset_ids (v : list cell) (self : DatasetList) : DatasetList :=
  {| e := e self; dataset_ids := Some v |}.

(** [ERDDAP(server=server, protocol=protocol)] *)
Definition new_ERDDAP (srv proto : string) : ERDDAP :=
  {| Run.server := srv; protocol := proto; variables := None;
     dataset_id := None; constraints := None |}.

(** The truth value of [self.fetcher.dataset_id]: [None] and the empty
    string are false. *)
Definition truth_dataset_id (v : option cell) : bool :=
  match v with
  | None => false
  | Some (CStr s) => negb (String.eqb s "")
  | Some CNaN => true
  end.

(** [not self.datasets].  [self.datasets] is [None] or a [DataFrame], and a
    [DataFrame] has no truth value: asking for it raises [ValueError]. *)
Definition not_datasets (v : option ref) : Res bool :=
  match v with
  | None => Ok true
  | Some _ =>
      Raise (ValueError
        "The truth value of a DataFrame is ambiguous. Use a.empty, a.bool(), a.item(), a.any() or a.all().")
  end.

(** [f"{v}"] for [self.fetcher.dataset_id] *)
Definition format_dataset_id (v : option cell) : string :=
  match v with
  | None => "None"
  | Some c => cell_str c
  end.

(** [f"{d}"] for the constraints dictionary: [{'k1': v1, 'k2': v2}]. *)
Definition format_item (kv : string * bound) : string :=
  "'" +:+ fst kv +:+ "': " +:+ bound_repr (snd kv).

Definition format_constraints (v : option (list (string * bound))) : string :=
  match v with
  | None => "None"
  | Some kvs => "{" +:+ Py.str_join ", " (map format_item kvs) +:+ "}"
  end.

(** [results = []; for x in l: results.append(f(x))] *)
Fixpoint map_m {S A B : Type} (f : A -> M S B) (l : list A) : M S (list B) :=
  match l with
  | [] => ret []
  | x :: r => y <- f x ;; ys <- map_m f r ;; ret (y :: ys)
  end.

Section WithServices.
Context `{Sv : Services}.

(** The label of an input column in the output: lower-cased first, then
    looked up in the rename table. *)
Definition output_label (c : string) : string :=
  rename_label server_parameter_rename (Py.str_lower c).

(** The lines of [standardise_df] as a table transformation. *)
Definition standardise (dataset_url : string) (d : DataFrame) : DataFrame :=
  setitem_scalar "dataset_url" (CStr dataset_url)
    (rename_index "time"
       (rename_columns server_parameter_rename
          (columns_lower d))).

(** [standardise_df(df, dataset_url)]: each line updates the table object
    [df] refers to; the reference itself is returned. *)
Definition standardise_df {S : Type} (df : ref) (dataset_url : string) : M S ref :=
  update df columns_lower ;;;
  update df (rename_columns server_parameter_rename) ;;;
  update df (rename_index "time") ;;;
  update df (setitem_scalar "dataset_url" (CStr dataset_url)) ;;;
  ret df.

(** [c.to_pandas(index_col=...)] of the ERDDAP client: one download, whose
    table becomes a new object. *)
Definition erddap_to_pandas {S : Type} (c : ERDDAP) (index_col : option string)
    : M S ref :=
  emit (EvTable c) ;;;
  d <- lift (tabledap c index_col) ;;
  alloc d.

(** [GliderDataFetcher.__init__] *)
Definition GliderDataFetcher_init (srv : string) : Res GliderDataFetcher :=
  match server_vars !! srv with
  | None => Raise (KeyError srv)
  | Some vars =>
      Ok {| server := srv;
            fetcher := set_dataset_id None
                         (set_variables vars (new_ERDDAP srv "tabledap"));
            datasets := None;
            query_url := None |}
  end.

(** The body of the loop of [to_pandas] for one catalog entry. *)
Definition fetch_one (id : cell) : M GliderDataFetcher ref :=
  modify_self (with_fetcher (set_dataset_id (Some id))) ;;;
  self <- get_self ;;
  df <- erddap_to_pandas (fetcher self) (Some "time (UTC)") ;;
  self <- get_self ;;
  let dataset_url := Py.split_head "?" (get_download_url (fetcher self)) in
  standardise_df df dataset_url.

(** The download URL of dataset [id], as client [c] builds it, up to the
    query string. *)
Definition dataset_url_of (c : ERDDAP) (id : cell) : string :=
  Py.split_head "?" (get_download_url (set_dataset_id (Some id) c)).

(** The standardised form of the tables [raw] downloaded for [ids]. *)
Definition normalised (c : ERDDAP) (ids : list cell) (raw : list DataFrame)
    : list DataFrame :=
  zip_with (λ id t, standardise (dataset_url_of c id) t) ids raw.

(** The receiver after the loop of [to_pandas] has gone through [ids]. *)
Definition after_loop (ids : list cell) (self : GliderDataFetcher)
    : GliderDataFetcher :=
  fold_left (λ s id, with_fetcher (set_dataset_id (Some id)) s) ids self.

(** [GliderDataFetcher.to_pandas] *)
Definition to_pandas : M GliderDataFetcher ref :=
  self <- get_self ;;
  if truth_dataset_id (dataset_id (fetcher self)) then
    df <- erddap_to_pandas (fetcher self) (Some "time (UTC)") ;;
    self <- get_self ;;
    let dataset_url := Py.split_head "?" (get_download_url (fetcher self)) in
    standardise_df df dataset_url
  else
    match datasets self with
    | Some cat =>
        catalog <- deref cat ;;
        ids <- lift (getitem "Dataset ID" catalog) ;;
        df_all <- map_m fetch_one (iter_item ids) ;;
        tables <- map_m deref df_all ;;
        d <- lift (pd_concat tables) ;;
        alloc d
    | None =>
        raise (ValueError ("Must provide a "
                           +:+ format_dataset_id (dataset_id (fetcher self))
                           +:+ " or `query` terms to download data."))
    end.

(** The constraints dictionary that [query] builds. *)
Definition query_constraints (min_lat max_lat min_lon max_lon min_time max_time : bound)
    : list (string * bound) :=
  [ ("time>=", min_time); ("time<=", max_time);
    ("latitude>=", min_lat); ("latitude<=", max_lat);
    ("longitude>=", min_lon); ("longitude<=", max_lon) ].

(** The [if not delayed:] block of [query]: the rows whose id does not end
    in [delayed] become a new table, which gets the column [info_url]. *)
Definition drop_delayed (df : ref) : M GliderDataFetcher ref :=
  d <- deref df ;;
  ids <- lift (getitem "Dataset ID" d) ;;
  mask <- lift (not_endswith "delayed" ids) ;;
  df <- alloc (loc_mask mask d) ;;
  d <- deref df ;;
  ids <- lift (getitem "Dataset ID" d) ;;
  self <- get_self ;;
  let info_urls :=
    map (fun dataset_id => CStr (get_info_url (fetcher self) dataset_id "html"))
        (iter_item ids) in
  d <- lift (setitem_list "info_url" info_urls d) ;;
  update df (fun _ => d) ;;;
  ret df.

(** [GliderDataFetcher.query] *)
Definition query (min_lat max_lat min_lon max_lon min_time max_time : bound)
    (delayed : bool) : M GliderDataFetcher (option ref) :=
  modify_self (with_fetcher (set_constraints
    (query_constraints min_lat max_lat min_lon max_lon min_time max_time))) ;;;
  self <- get_self ;;
  search <- lift (not_datasets (datasets self)) ;;
  (if search : bool then
     let url := get_search_url (fetcher self) "glider" "csv"
                  min_lat max_lat min_lon max_lon min_time max_time in
     modify_self (set_query_url url) ;;;
     data <- try_except_http
               (emit (EvSearch url) ;;; lift (urlopen url))
               (fun err =>
                  self <- get_self ;;
                  raise (ExceptionFrom
                    ("Error, no datasets found in supplied range. Try relaxing your constraints: "
                     +:+ format_constraints (constraints (fetcher self)))
                    err)) ;;
     d <- lift (read_csv data) ;;
     d <- lift (getitem_list ["Title"; "Institution"; "Dataset ID"] d) ;;
     df <- alloc d ;;
     df <- (if negb delayed then drop_delayed df else ret df) ;;
     modify_self (set_datasets (Some df))
   else ret tt) ;;;
  self <- get_self ;;
  ret (datasets self).

(** [DatasetList.__init__] *)
Definition DatasetList_init (srv : string) : DatasetList :=
  {| e := new_ERDDAP srv "tabledap"; dataset_ids := None |}.

(** [DatasetList.get_ids] *)
Definition get_ids : M DatasetList (list cell) :=
  self <- get_self ;;
  if String.eqb (Run.server (e self)) "https://gliders.ioos.us/erddap" then
    modify_self (with_e (set_dataset_id (Some (CStr "allDatasets")))) ;;;
    self <- get_self ;;
    df <- erddap_to_pandas (e self) None ;;
    d <- deref df ;;
    col <- lift (getitem "datasetID" d) ;;
    dataset_ids <- lift (to_list col) ;;
    match Py.list_remove (CStr "allDatasets") dataset_ids with
    | None => raise (ValueError "list.remove(x): x not in list")
    | Some dataset_ids =>
        modify_self (set_dataset_ids dataset_ids) ;;;
        ret dataset_ids
    end
  else
    raise (ValueError ("The " +:+ Run.server (e self)
                       +:+ " does not supported this operation.")).

End WithServices.

End Fetchers.

(** ** A small world to run the module in *)

Module Sample.
Import Pandas Run Frames Services Fetchers.

(** Two glider deployments as the server would return them for
    [index_col="time (UTC)"]. *)
Definition table_ru29 : DataFrame :=
  {| data := [ ("Temperature (Celsius)", [CStr "21.5"; CStr "21.4"]);
               ("pressure (dbar)", [CStr "1.0"; CStr "2.0"]) ];
     index_name := Some "time (UTC)";
     index := ["2020-01-02T00:00:00Z"; "2020-01-02T00:00:05Z"] |}.

Definition table_ng314 : DataFrame :=
  {| data := [ ("Temperature (Celsius)", [CStr "18.0"]);
               ("pressure (dbar)", [CStr "7.5"]) ];
     index_name := Some "time (UTC)";
     index := ["2020-01-09T12:00:00Z"] |}.

(** The [allDatasets] table of the server. *)
Definition table_all : DataFrame :=
  {| data := [ ("datasetID", [CStr "allDatasets"; CStr "ru29-2020"; CStr "ng314-2020"]) ];
     index_name := None;
     index := ["0"; "1"; "2"] |}.

(** A parsed catalog-search response. *)
Definition search_table : DataFrame :=
  {| data := [ ("griddap", [CNaN; CNaN; CNaN]);
               ("Title", [CStr "ru29"; CStr "ru29 (delayed)"; CStr "ng314"]);
               ("Institution", [CStr "Rutgers"; CStr "Rutgers"; CStr "Navy"]);
               ("Dataset ID", [CStr "ru29-2020"; CStr "ru29-2020-delayed";
                               CStr "ng314-2020"]) ];
     index_name := None;
     index := ["0"; "1"; "2"] |}.

Definition rename_table : gmap string string :=
  <["temperature (celsius)" := "temperature"]>
    (<["pressure (dbar)" := "pressure"]> ∅).

Definition vars_table : gmap string (list string) :=
  <[_server := ["latitude"; "longitude"; "pressure"; "temperature"; "time"]]> ∅.

Definition search_url (c : ERDDAP) (search_for response : string)
    (min_lat max_lat min_lon max_lon min_time max_time : bound) : string :=
  Run.server c +:+ "/search/advanced." +:+ response
    +:+ "?searchFor=" +:+ search_for
    +:+ "&minLat=" +:+ bound_repr min_lat +:+ "&maxLat=" +:+ bound_repr max_lat
    +:+ "&minLon=" +:+ bound_repr min_lon +:+ "&maxLon=" +:+ bound_repr max_lon
    +:+ "&minTime=" +:+ bound_repr min_time +:+ "&maxTime=" +:+ bound_repr max_time.

Definition info_url (c : ERDDAP) (id : cell) (response : string) : string :=
  Run.server c +:+ "/info/" +:+ cell_str id +:+ "/index." +:+ response.

Definition download_url (c : ERDDAP) : string :=
  Run.server c +:+ "/tabledap/" +:+ format_dataset_id (dataset_id c)
    +:+ ".csvp?" +:+ Py.str_join "," (default [] (variables c)).

Definition answer (c : ERDDAP) (index_col : option string) : Res DataFrame :=
  match dataset_id c with
  | Some (CStr id) =>
      if String.eqb id "ru29-2020" then Ok table_ru29
      else if String.eqb id "ng314-2020" then Ok table_ng314
      else if String.eqb id "allDatasets" then Ok table_all
      else Raise (HTTPError "404 Not Found")
  | _ => Raise (OtherError "no dataset id")
  end.

(** A server that answers every catalog search with [search_table]. *)
Definition online : Services :=
  {| server_parameter_rename := rename_table;
     server_vars := vars_table;
     get_search_url := search_url;
     get_info_url := info_url;
     get_download_url := download_url;
     tabledap := answer;
     urlopen := fun _ => Ok "griddap,Title,Institution,Dataset ID";
     read_csv := fun _ => Ok search_table |}.

(** The same server when the catalog search fails. *)
Definition offline : Services :=
  {| server_parameter_rename := rename_table;
     server_vars := vars_table;
     get_search_url := search_url;
     get_info_url := info_url;
     get_download_url := download_url;
     tabledap := answer;
     urlopen := fun _ => Raise (HTTPError "500 Internal Server Error");
     read_csv := fun _ => Ok search_table |}.

(** A rename table whose targets are renamed again. *)
Definition chained : Services :=
  {| server_parameter_rename := <["temp" := "t"]> (<["t" := "temperature"]> ∅);
     server_vars := vars_table;
     get_search_url := search_url;
     get_info_url := info_url;
     get_download_url := download_url;
     tabledap := answer;
     urlopen := fun _ => Ok "";
     read_csv := fun _ => Ok search_table |}.

Definition empty_world : World := {| heap := []; log := [] |}.

(** A freshly constructed fetcher. *)
Definition fresh : GliderDataFetcher :=
  {| server := _server;
     fetcher := {| Run.server := _server; protocol := "tabledap";
                   variables := Some ["latitude"; "longitude"; "pressure";
                                      "temperature"; "time"];
                   dataset_id := None; constraints := None |};
     datasets := None;
     query_url := None |}.

Definition b (s : string) : bound := {| bound_repr := s |}.

(** The catalog that [query] leaves behind without [delayed]. *)
Definition catalog : DataFrame :=
  {| data := [ ("Title", [CStr "ru29"; CStr "ng314"]);
               ("Institution", [CStr "Rutgers"; CStr "Navy"]);
               ("Dataset ID", [CStr "ru29-2020"; CStr "ng314-2020"]);
               ("info_url",
                [CStr "https://gliders.ioos.us/erddap/info/ru29-2020/index.html";
                 CStr "https://gliders.ioos.us/erddap/info/ng314-2020/index.html"]) ];
     index_name := None;
     index := ["0"; "2"] |}.

(** A catalog without entries. *)
Definition empty_catalog : DataFrame :=
  {| data := [ ("Title", []); ("Institution", []); ("Dataset ID", []);
               ("info_url", []) ];
     index_name := None;
     index := [] |}.

(** A fetcher that holds a catalog, stored at reference [0]. *)
Definition queried : GliderDataFetcher :=
  {| server := _server;
     fetcher := fetcher fresh;
     datasets := Some 0;
     query_url := None |}.

(** The standardised form of [table_ru29]. *)
Definition standard_ru29 : DataFrame :=
  {| data := [ ("temperature", [CStr "21.5"; CStr "21.4"]);
               ("pressure", [CStr "1.0"; CStr "2.0"]);
               ("dataset_url",
                [CStr "https://gliders.ioos.us/erddap/tabledap/ru29-2020.csvp";
                 CStr "https://gliders.ioos.us/erddap/tabledap/ru29-2020.csvp"]) ];
     index_name := Some "time";
     index := ["2020-01-02T00:00:00Z"; "2020-01-02T00:00:05Z"] |}.

(** The table [to_pandas] builds from [catalog]. *)
Definition concatenated : DataFrame :=
  {| data := [ ("temperature", [CStr "21.5"; CStr "21.4"; CStr "18.0"]);
               ("pressure", [CStr "1.0"; CStr "2.0"; CStr "7.5"]);
               ("dataset_url",
                [CStr "https://gliders.ioos.us/erddap/tabledap/ru29-2020.csvp";
                 CStr "https://gliders.ioos.us/erddap/tabledap/ru29-2020.csvp";
                 CStr "https://gliders.ioos.us/erddap/tabledap/ng314-2020.csvp"]) ];
     index_name := Some "time";
     index := ["2020-01-02T00:00:00Z"; "2020-01-02T00:00:05Z";
               "2020-01-09T12:00:00Z"] |}.

(** A world that holds one downloaded table, at reference [0]. *)
Definition one_table : World := {| heap := [table_ru29]; log := [] |}.

Definition url_ru29 : string :=
  "https://gliders.ioos.us/erddap/tabledap/ru29-2020.csvp".

(** The standardised form of [table_ng314]. *)
Definition standard_ng314 : DataFrame :=
  {| data := [ ("temperature", [CStr "18.0"]);
               ("pressure", [CStr "7.5"]);
               ("dataset_url",
                [CStr "https://gliders.ioos.us/erddap/tabledap/ng314-2020.csvp"]) ];
     index_name := Some "time";
     index := ["2020-01-09T12:00:00Z"] |}.

(** A fetcher whose active dataset id is [id]. *)
Definition active (id : string) : GliderDataFetcher :=
  with_fetcher (set_dataset_id (Some (CStr id))) fresh.

(** A catalog whose second dataset the server does not have. *)
Definition catalog_gap : DataFrame :=
  {| data := [ ("Title", [CStr "ru29"; CStr "gone"; CStr "ng314"]);
               ("Institution", [CStr "Rutgers"; CStr "Rutgers"; CStr "Navy"]);
               ("Dataset ID", [CStr "ru29-2020"; CStr "gone-2019"; CStr "ng314-2020"]) ];
     index_name := None;
     index := ["0"; "1"; "2"] |}.

(** A catalog with one entry. *)
Definition catalog_one : DataFrame :=
  {| data := [ ("Title", [CStr "ng314"]);
               ("Institution", [CStr "Navy"]);
               ("Dataset ID", [CStr "ng314-2020"]) ];
     index_name := None;
     index := ["0"] |}.


(** A search response that lists delayed-mode datasets only. *)
Definition search_table_delayed : DataFrame :=
  {| data := [ ("Title", [CStr "ru29 (delayed)"; CStr "ng314 (delayed)"]);
               ("Institution", [CStr "Rutgers"; CStr "Navy"]);
               ("Dataset ID", [CStr "ru29-2020-delayed"; CStr "ng314-2020-delayed"]) ];
     index_name := None;
     index := ["0"; "1"] |}.

(** The sample server with another answer to the catalog search. *)
Definition searching (body : Res string) (csv : Res DataFrame) : Services :=
  {| server_parameter_rename := rename_table;
     server_vars := vars_table;
     get_search_url := search_url;
     get_info_url := info_url;
     get_download_url := download_url;
     tabledap := answer;
     urlopen := fun _ => body;
     read_csv := fun _ => csv |}.

(** The sample server with another [allDatasets] table. *)
Definition listing (ids : list cell) : Services :=
  {| server_parameter_rename := rename_table;
     server_vars := vars_table;
     get_search_url := search_url;
     get_info_url := info_url;
     get_download_url := download_url;
     tabledap := fun _ _ =>
       Ok {| data := [("datasetID", ids)]; index_name := None;
             index := map (fun _ => "") ids |};
     urlopen := fun _ => Ok "";
     read_csv := fun _ => Ok search_table |}.

(** A table with a column that the Normalizer overwrites. *)
Definition table_tagged : DataFrame :=
  {| data := [ ("Dataset_URL", [CStr "elsewhere"]);
               ("Pressure (dbar)", [CStr "3.0"]) ];
     index_name := Some "time (UTC)";
     index := ["2020-03-01T00:00:00Z"] |}.

End Sample.

(** * Properties *)

(** ** Python built-ins *)

Section PyFacts.
Import Py.

Lemma lower_ascii_idem (c : ascii) : lower_ascii (lower_ascii c) = lower_ascii c.
Proof. destruct c as [[] [] [] [] [] [] [] []]; reflexivity. Qed.

Lemma str_lower_idem (s : string) : str_lower (str_lower s) = str_lower s.
Proof.
  induction s as [|c r IH]; simpl; [reflexivity|].
  now rewrite lower_ascii_idem, IH.
Qed.

Lemma str_append_assoc (s1 s2 s3 : string) :
  (s1 +:+ s2) +:+ s3 = s1 +:+ (s2 +:+ s3).
Proof.
  induction s1 as [|c r IH]; [reflexivity|].
  change (String c ((r +:+ s2) +:+ s3) = String c (r +:+ (s2 +:+ s3))).
  now f_equal.
Qed.

Lemma str_length_append (s1 s2 : string) :
  String.length (s1 +:+ s2) = String.length s1 + String.length s2.
Proof. induction s1 as [|c r IH]; simpl; [reflexivity|]. now rewrite IH. Qed.

Lemma substring_all (s : string) : substring 0 (String.length s) s = s.
Proof. induction s as [|c r IH]; simpl; [reflexivity|]. now rewrite IH. Qed.

Lemma substring_skip (p s : string) (k : nat) :
  substring (String.length p) k (p +:+ s) = substring 0 k s.
Proof. induction p as [|c r IH]; simpl; [reflexivity|]. exact IH. Qed.

Lemma substring_split (s : string) (m : nat) :
  (m ≤ String.length s)%nat →
  s = substring 0 m s +:+ substring m (String.length s - m) s.
Proof.
  revert m. induction s as [|c r IH]; intros [|m] Hm; simpl in *; try lia.
  - reflexivity.
  - now rewrite substring_all.
  - change (String c r
            = String c (substring 0 m r +:+ substring m (String.length r - m) r)).
    f_equal. apply IH. lia.
Qed.

(** [str_endswith] holds exactly of the texts that end in the suffix. *)
Lemma str_endswith_spec (s suffix : string) :
  str_endswith s suffix = true ↔ ∃ p, s = p +:+ suffix.
Proof.
  unfold str_endswith. rewrite andb_true_iff, Nat.leb_le, String.eqb_eq. split.
  - intros [Hle Hsub]. exists (substring 0 (String.length s - String.length suffix) s).
    pose proof (substring_split s (String.length s - String.length suffix)) as H.
    replace (String.length s - (String.length s - String.length suffix))
      with (String.length suffix) in H by lia.
    rewrite Hsub in H. apply H. lia.
  - intros [p ->]. rewrite str_length_append. split; [lia|].
    replace (String.length p + String.length suffix - String.length suffix)
      with (String.length p) by lia.
    rewrite substring_skip. apply substring_all.
Qed.

Example str_lower_example :
  str_lower "Temperature (Celsius)" = "temperature (celsius)".
Proof. reflexivity. Qed.

Example str_endswith_examples :
  str_endswith "ru29-2020-delayed" "delayed" = true
  ∧ str_endswith "delayed" "delayed" = true
  ∧ str_endswith "ru29-2020" "delayed" = false
  ∧ str_endswith "layed" "delayed" = false.
Proof. repeat split. Qed.

Example split_head_examples :
  split_head "?" "https://host/tabledap/id.csvp?time,depth" = "https://host/tabledap/id.csvp"
  ∧ split_head "?" "https://host/tabledap/id.csvp" = "https://host/tabledap/id.csvp".
Proof. split; reflexivity. Qed.

Example list_remove_examples :
  list_remove "a" ["b"; "a"; "c"; "a"] = Some ["b"; "c"; "a"]
  ∧ list_remove "a" ["b"; "c"] = None.
Proof. split; reflexivity. Qed.

End PyFacts.

(** ** Tables *)

Section PandasFacts.
Import Pandas.

Lemma has_column_elem (label : string) (d : DataFrame) :
  has_column label d = true ↔ label ∈ columns d.
Proof.
  unfold has_column. rewrite existsb_exists. split.
  - intros (x & Hin & Heq). apply String.eqb_eq in Heq. subst x.
    now apply list_elem_of_In.
  - intros Hin. exists label. split; [now apply list_elem_of_In|].
    apply String.eqb_refl.
Qed.

Lemma has_column_false (label : string) (d : DataFrame) :
  has_column label d = false ↔ label ∉ columns d.
Proof.
  rewrite <- has_column_elem. destruct (has_column label d); naive_solver.
Qed.

Lemma relabel_relabel (f g : string → string) (d : DataFrame) :
  relabel f (relabel g d) = relabel (λ c, f (g c)) d.
Proof.
  unfold relabel. simpl. f_equal. rewrite map_map. reflexivity.
Qed.

Lemma relabel_fixed (f : string → string) (d : DataFrame) :
  (∀ c, c ∈ columns d → f c = c) → relabel f d = d.
Proof.
  destruct d as [cs n ix]. unfold relabel, columns. simpl. intros Hf. f_equal.
  induction cs as [|[l v] cs IH]; simpl; [reflexivity|].
  rewrite Hf by (simpl; left). f_equal. apply IH.
  intros c Hc. apply Hf. simpl. now right.
Qed.

Lemma columns_relabel (f : string → string) (d : DataFrame) :
  columns (relabel f d) = map f (columns d).
Proof. unfold columns, relabel. simpl. now rewrite !map_map. Qed.

Lemma columns_overwrite (label : string) (vals : list cell) cs :
  map fst (overwrite label vals cs) = map fst cs.
Proof.
  unfold overwrite. rewrite map_map. apply map_ext.
  intros c. now destruct (String.eqb (fst c) label).
Qed.

Lemma overwrite_overwrite (label : string) (vals : list cell) cs :
  overwrite label vals (overwrite label vals cs) = overwrite label vals cs.
Proof.
  unfold overwrite. rewrite map_map. apply map_ext. intros [l v]. simpl.
  destruct (String.eqb l label) eqn:E; simpl; now rewrite E.
Qed.

Lemma columns_setitem (label : string) (vals : list cell) (d : DataFrame) :
  columns (setitem label vals d)
  = columns d ++ (if has_column label d then [] else [label]).
Proof.
  unfold columns, setitem. simpl. fold (columns d).
  destruct (has_column label d).
  - now rewrite columns_overwrite, app_nil_r.
  - now rewrite map_app.
Qed.

Lemma has_column_setitem (label : string) (vals : list cell) (d : DataFrame) :
  has_column label (setitem label vals d) = true.
Proof.
  apply has_column_elem. rewrite columns_setitem.
  destruct (has_column label d) eqn:E.
  - rewrite app_nil_r. now apply has_column_elem.
  - apply elem_of_app. right. now left.
Qed.

(** The columns under [label] after [df[label] = vals] all hold [vals]. *)
Lemma columns_named_setitem (label : string) (vals : list cell) (d : DataFrame) :
  columns_named label (setitem label vals d) ≠ []
  ∧ Forall (λ c, snd c = vals) (columns_named label (setitem label vals d)).
Proof.
  split.
  - pose proof (has_column_setitem label vals d) as H.
    apply has_column_elem in H. unfold columns in H.
    apply list_elem_of_fmap in H as ([l v] & Hl & Hin). simpl in Hl. subst l.
    intros Hnil. unfold columns_named in Hnil.
    assert (Hf : (label, v) ∈ filter (λ c, fst c = label) (data (setitem label vals d))).
    { apply list_elem_of_filter. now split. }
    rewrite Hnil in Hf. now apply not_elem_of_nil in Hf.
  - apply Forall_forall. intros [l v] Hin.
    unfold columns_named in Hin. apply list_elem_of_filter in Hin as [Hl Hin].
    simpl in Hl. subst l. simpl.
    unfold setitem in Hin. simpl in Hin. destruct (has_column label d) eqn:E.
    + unfold overwrite in Hin. apply list_elem_of_fmap in Hin as ([l' v'] & Heq & _).
      simpl in Heq. destruct (String.eqb l' label) eqn:E'.
      * now inversion Heq.
      * inversion Heq; subst. now rewrite String.eqb_refl in E'.
    + apply elem_of_app in Hin as [Hin|Hin].
      * apply has_column_false in E. destruct E. unfold columns.
        apply list_elem_of_fmap. now exists (label, v).
      * apply list_elem_of_singleton in Hin. now inversion Hin.
Qed.

Lemma setitem_setitem (label : string) (vals : list cell) (d : DataFrame) :
  setitem label vals (setitem label vals d) = setitem label vals d.
Proof.
  unfold setitem at 1. rewrite has_column_setitem.
  unfold setitem. simpl. destruct (has_column label d) eqn:E; f_equal.
  - apply overwrite_overwrite.
  - unfold overwrite. rewrite map_app. simpl. rewrite String.eqb_refl. f_equal.
    apply has_column_false in E.
    assert (H : ∀ cs : list (string * list cell), label ∉ map fst cs →
               map (λ c, if String.eqb (fst c) label then (fst c, vals) else c) cs = cs).
    { induction cs as [|[l v] cs IH]; simpl; intros Hn; [reflexivity|].
      destruct (String.eqb l label) eqn:E'.
      - apply String.eqb_eq in E'. subst l. destruct Hn. now left.
      - f_equal. apply IH. intros Hin. apply Hn. now right. }
    now apply H.
Qed.

Lemma setitem_scalar_twice (label : string) (v : cell) (d : DataFrame) :
  setitem_scalar label v (setitem_scalar label v d) = setitem_scalar label v d.
Proof. unfold setitem_scalar. simpl. apply setitem_setitem. Qed.

End PandasFacts.

(** ** The Normalizer: [standardise_df] *)

Section Normalizer.
Import Pandas Run Frames Services Fetchers.
Context `{Sv : Services}.

Lemma standardise_unfold (url : string) (d : DataFrame) :
  standardise url d
  = setitem_scalar "dataset_url" (CStr url) (rename_index "time" (relabel output_label d)).
Proof.
  unfold standardise, rename_columns, columns_lower. now rewrite relabel_relabel.
Qed.

Lemma nrows_standardise (url : string) (d : DataFrame) :
  nrows (standardise url d) = nrows d.
Proof. reflexivity. Qed.

Lemma index_standardise (url : string) (d : DataFrame) :
  index (standardise url d) = index d.
Proof. reflexivity. Qed.

Lemma index_name_standardise (url : string) (d : DataFrame) :
  index_name (standardise url d) = Some "time".
Proof. reflexivity. Qed.

Lemma columns_standardise (url : string) (d : DataFrame) :
  columns (standardise url d)
  = map output_label (columns d)
    ++ (if decide ("dataset_url" ∈ map output_label (columns d)) then []
        else ["dataset_url"]).
Proof.
  rewrite standardise_unfold. unfold setitem_scalar. rewrite columns_setitem.
  change (columns (rename_index "time" (relabel output_label d)))
    with (columns (relabel output_label d)).
  rewrite columns_relabel. f_equal.
  destruct (has_column "dataset_url" (rename_index "time" (relabel output_label d))) eqn:E.
  - apply has_column_elem in E.
    change (columns (rename_index "time" (relabel output_label d)))
      with (columns (relabel output_label d)) in E.
    rewrite columns_relabel in E. now rewrite decide_True.
  - apply has_column_false in E.
    change (columns (rename_index "time" (relabel output_label d)))
      with (columns (relabel output_label d)) in E.
    rewrite columns_relabel in E. now rewrite decide_False.
Qed.

(** Running [standardise_df] on a live reference: the table behind it is
    replaced by its standardised form and the reference comes back. *)
Lemma standardise_df_run {S : Type} (df : ref) (url : string) (s : S) (w : World)
    (d : DataFrame) :
  heap w !! df = Some d →
  standardise_df df url s w
  = (Ok df, s, {| heap := <[df := standardise url d]> (heap w); log := log w |}).
Proof.
  intros Hd. pose proof (lookup_lt_Some _ _ _ Hd) as Hlt.
  unfold standardise_df, bind, update, ret. rewrite Hd. simpl.
  rewrite list_lookup_insert_eq by assumption. simpl.
  rewrite list_lookup_insert_eq by (now rewrite length_insert). simpl.
  rewrite list_lookup_insert_eq by (now rewrite !length_insert). simpl.
  now rewrite !list_insert_insert_eq.
Qed.

(** On a dangling reference the first line raises and nothing changes. *)
Lemma standardise_df_dangling {S : Type} (df : ref) (url : string) (s : S) (w : World) :
  heap w !! df = None →
  standardise_df df url s w = (Raise (OtherError "dangling reference"), s, w).
Proof.
  intros Hd. unfold standardise_df, bind, update. now rewrite Hd.
Qed.

Lemma output_label_fixed (c : string) :
  canonical server_parameter_rename → output_label (output_label c) = output_label c.
Proof.
  intros [Hm _]. unfold output_label. unfold rename_label at 2 3.
  destruct (server_parameter_rename !! Py.str_lower c) as [v|] eqn:E; simpl.
  - destruct (Hm _ _ E) as [Hl Hr]. now rewrite Hl.
  - unfold rename_label. now rewrite str_lower_idem, E.
Qed.

Lemma standardise_idempotent (url : string) (d : DataFrame) :
  canonical server_parameter_rename →
  standardise url (standardise url d) = standardise url d.
Proof.
  intros Hc. rewrite (standardise_unfold url (standardise url d)).
  rewrite relabel_fixed.
  - rewrite (standardise_unfold url d).
    set (t := rename_index "time" (relabel output_label d)).
    transitivity (setitem_scalar "dataset_url" (CStr url)
                    (setitem_scalar "dataset_url" (CStr url) t)).
    + reflexivity.
    + apply setitem_scalar_twice.
  - intros c Hin. rewrite columns_standardise in Hin.
    apply elem_of_app in Hin as [Hin|Hin].
    + apply list_elem_of_fmap in Hin as (c0 & -> & _). now apply output_label_fixed.
    + destruct (decide _) in Hin; [now apply not_elem_of_nil in Hin|].
      apply list_elem_of_singleton in Hin. subst c. apply Hc.
Qed.

(** C9, as the code has it: [standardise_df] works in place.  It returns the
    reference it was given, the table object behind that reference now holds
    the standardised table, and every other table object, the receiver and
    the request log are as before. *)
Theorem standardise_df_in_place {S : Type} (df : ref) (url : string) (s : S)
    (w : World) (d : DataFrame) :
  heap w !! df = Some d →
  ∃ w', standardise_df df url s w = (Ok df, s, w')
        ∧ heap w' !! df = Some (standardise url d)
        ∧ (∀ r, r ≠ df → heap w' !! r = heap w !! r)
        ∧ length (heap w') = length (heap w)
        ∧ log w' = log w.
Proof.
  intros Hd. eexists. split; [apply (standardise_df_run _ _ _ _ _ Hd)|]. simpl.
  repeat split.
  - apply list_lookup_insert_eq. eapply lookup_lt_Some, Hd.
  - intros r Hr. now apply list_lookup_insert_ne.
  - apply length_insert.
Qed.

(** C5, as the code has it: the output's column labels are the input's labels,
    each lower-cased and then renamed, in the input's order, followed by
    [dataset_url] unless a column already had that label; the columns under
    [dataset_url] hold the source URL in every row. *)
Theorem standardise_df_columns {S : Type} (df : ref) (url : string) (s : S)
    (w : World) (d : DataFrame) :
  heap w !! df = Some d →
  ∃ out w', standardise_df df url s w = (Ok df, s, w')
    ∧ heap w' !! df = Some out
    ∧ columns out
      = map (λ c, rename_label server_parameter_rename (Py.str_lower c)) (columns d)
        ++ (if decide ("dataset_url"
                       ∈ map (λ c, rename_label server_parameter_rename (Py.str_lower c))
                             (columns d))
            then [] else ["dataset_url"])
    ∧ nrows out = nrows d
    ∧ columns_named "dataset_url" out ≠ []
    ∧ Forall (λ c, snd c = replicate (nrows d) (CStr url))
             (columns_named "dataset_url" out).
Proof.
  intros Hd. exists (standardise url d). eexists.
  split; [apply (standardise_df_run _ _ _ _ _ Hd)|]. simpl.
  split; [apply list_lookup_insert_eq; eapply lookup_lt_Some, Hd|].
  split; [apply columns_standardise|].
  split; [reflexivity|].
  apply (columns_named_setitem "dataset_url" (replicate (nrows d) (CStr url))
           (rename_index "time"
              (rename_columns server_parameter_rename (columns_lower d)))).
Qed.

(** C8: with a canonical rename table, running [standardise_df] a second
    time with the same URL returns what the first run returned and leaves
    the state the first run produced. *)
Theorem standardise_df_idempotent {S : Type} (df : ref) (url : string) (s : S)
    (w : World) :
  canonical server_parameter_rename →
  ∀ r s1 w1, standardise_df df url s w = (r, s1, w1) →
             standardise_df df url s1 w1 = (r, s1, w1).
Proof.
  intros Hc r s1 w1 Hrun.
  destruct (heap w !! df) as [d|] eqn:Hd.
  - rewrite (standardise_df_run _ _ _ _ _ Hd) in Hrun. inversion Hrun; subst. clear Hrun.
    pose proof (lookup_lt_Some _ _ _ Hd) as Hlt.
    rewrite (standardise_df_run df url s1 _ (standardise url d)).
    + simpl. now rewrite standardise_idempotent, list_insert_insert_eq.
    + simpl. now apply list_lookup_insert_eq.
  - rewrite (standardise_df_dangling _ _ _ _ Hd) in Hrun. inversion Hrun; subst.
    now apply standardise_df_dangling.
Qed.

End Normalizer.

(** ** Selecting columns and rows *)

Section FrameFacts.
Import Pandas Run Frames.

Lemma getitem_series (label : string) (d : DataFrame) (vals : list cell) :
  getitem label d = Ok (Series vals) → columns_named label d = [(label, vals)].
Proof.
  unfold getitem. destruct (columns_named label d) as [|[l v] [|c' r]] eqn:E;
    intros H; inversion H; subst.
  assert (Hin : (l, vals) ∈ columns_named label d) by (rewrite E; left).
  unfold columns_named in Hin. apply list_elem_of_filter in Hin as [Hl _].
  simpl in Hl. now subst l.
Qed.

Lemma getitem_three (d : DataFrame) (t i ids : list cell) :
  getitem "Title" d = Ok (Series t) →
  getitem "Institution" d = Ok (Series i) →
  getitem "Dataset ID" d = Ok (Series ids) →
  getitem_list ["Title"; "Institution"; "Dataset ID"] d
  = Ok {| data := [("Title", t); ("Institution", i); ("Dataset ID", ids)];
          index_name := index_name d; index := index d |}.
Proof.
  intros Ht Hi Hd. unfold getitem_list, columns_of.
  now rewrite (getitem_series _ _ _ Ht), (getitem_series _ _ _ Hi),
    (getitem_series _ _ _ Hd).
Qed.

Lemma wf_column (label : string) (d : DataFrame) (vals : list cell) :
  wf d → getitem label d = Ok (Series vals) → length vals = nrows d.
Proof.
  intros Hwf Hg. apply getitem_series in Hg.
  assert (Hin : (label, vals) ∈ columns_named label d) by (rewrite Hg; left).
  unfold columns_named in Hin. apply list_elem_of_filter in Hin as [_ Hin].
  unfold wf in Hwf. rewrite Forall_forall in Hwf. apply (Hwf (label, vals) Hin).
Qed.

Lemma select_mask_negb {A : Type} (p : A → bool) (l : list A) :
  select_mask (map (λ x, negb (p x)) l) l = filter (λ x, p x = false) l.
Proof.
  induction l as [|x l IH]; simpl; [reflexivity|].
  destruct (p x) eqn:E; simpl.
  - rewrite filter_cons_False by (rewrite E; discriminate). apply IH.
  - rewrite filter_cons_True by assumption. now rewrite IH.
Qed.

Lemma length_select_mask {A B : Type} (mask : list bool) (l1 : list A) (l2 : list B) :
  length l1 = length l2 →
  length (select_mask mask l1) = length (select_mask mask l2).
Proof.
  revert l1 l2. induction mask as [|b mask IH]; intros [|x l1] [|y l2] H;
    simpl in *; try reflexivity; try discriminate.
  injection H as H. destruct b; simpl; auto.
Qed.

Lemma not_endswith_series (suffix : string) (vals : list cell) :
  Forall (λ v, is_nan v = false) vals →
  not_endswith suffix (Series vals)
  = Ok (map (λ v, negb (Py.str_endswith (cell_str v) suffix)) vals).
Proof.
  intros H. unfold not_endswith.
  assert (E : existsb is_nan vals = false).
  { induction H as [|v l Hv _ IH]; simpl; [reflexivity|]. now rewrite Hv, IH. }
  now rewrite E.
Qed.

Lemma columns_named_loc_mask (label : string) (mask : list bool) (d : DataFrame) :
  columns_named label (loc_mask mask d)
  = map (λ c, (fst c, select_mask mask (snd c))) (columns_named label d).
Proof.
  unfold columns_named, loc_mask. simpl.
  induction (data d) as [|c cs IH]; [reflexivity|]. simpl.
  destruct (decide (fst c = label)) as [Hc|Hc].
  - rewrite !filter_cons_True by assumption. simpl. now rewrite IH.
  - now rewrite !filter_cons_False by assumption.
Qed.

Lemma columns_loc_mask (mask : list bool) (d : DataFrame) :
  columns (loc_mask mask d) = columns d.
Proof. unfold columns, loc_mask. cbn [data]. now rewrite map_map. Qed.

Lemma columns_named_absent (label : string) (d : DataFrame) :
  has_column label d = false → columns_named label d = [].
Proof.
  intros H. apply has_column_false in H. unfold columns_named, columns in *.
  induction (data d) as [|c cs IH]; [reflexivity|].
  rewrite filter_cons_False.
  - apply IH. intros Hin. apply H. simpl. now right.
  - intros Hc. apply H. simpl. rewrite Hc. left.
Qed.

(** Assigning a column under a new label adds exactly that column and
    leaves the columns under every other label as they were. *)
Lemma columns_named_setitem_new (label : string) (vals : list cell) (d : DataFrame) :
  has_column label d = false →
  columns_named label (setitem label vals d) = [(label, vals)]
  ∧ ∀ l, l ≠ label → columns_named l (setitem label vals d) = columns_named l d.
Proof.
  intros H. unfold columns_named at 1 2, setitem. simpl. rewrite H. split.
  - rewrite filter_app. fold (columns_named label d).
    rewrite (columns_named_absent _ _ H). now rewrite filter_cons_True, filter_nil.
  - intros l Hl. rewrite filter_app, filter_cons_False, filter_nil by (simpl; congruence).
    now rewrite app_nil_r.
Qed.

Lemma columns_of_labels (labels : list string) (d : DataFrame)
    (cs : list (string * list cell)) :
  columns_of labels d = Ok cs → Forall (λ c, fst c ∈ labels) cs.
Proof.
  revert cs. induction labels as [|l labels IH]; intros cs H; simpl in H.
  - injection H as <-. constructor.
  - destruct (columns_named l d) as [|c0 r0] eqn:E; [discriminate|].
    destruct (columns_of labels d) as [cs'|]; [|discriminate]. injection H as <-.
    change (c0 :: r0 ++ cs') with ((c0 :: r0) ++ cs'). apply Forall_app. split.
    + apply Forall_forall. intros c Hc. rewrite <- E in Hc.
      unfold columns_named in Hc. apply list_elem_of_filter in Hc as [-> _]. left.
    + eapply Forall_impl; [now apply IH|]. intros c Hc. now right.
Qed.

End FrameFacts.

(** ** The Query Builder: [GliderDataFetcher.query] *)

Section Query.
Import Pandas Run Frames Services Fetchers.
Context `{Sv : Services}.

(** With a catalog in place, [not self.datasets] asks a [DataFrame] for its
    truth value: the call raises [ValueError] right after it has stored the
    new constraints, and no request is made. *)
Lemma query_with_catalog (min_lat max_lat min_lon max_lon min_time max_time : bound)
    (delayed : bool) (self : GliderDataFetcher) (w : World) (r : ref) :
  datasets self = Some r →
  query min_lat max_lat min_lon max_lon min_time max_time delayed self w
  = (Raise (ValueError
      "The truth value of a DataFrame is ambiguous. Use a.empty, a.bool(), a.item(), a.any() or a.all()."),
     with_fetcher (set_constraints
       (query_constraints min_lat max_lat min_lon max_lon min_time max_time)) self,
     w).
Proof.
  intros H. unfold query, bind, modify_self, get_self, lift. simpl.
  now rewrite H.
Qed.

(** C7: when the catalog search fails with an HTTP error, [query] raises an
    [Exception] chained to that error whose message spells out the six
    constraints just stored; exactly one search request has been made, and
    no catalog is stored. *)
Theorem query_http_error (min_lat max_lat min_lon max_lon min_time max_time : bound)
    (delayed : bool) (self : GliderDataFetcher) (w : World) (msg : string) :
  let self1 := with_fetcher (set_constraints
                 (query_constraints min_lat max_lat min_lon max_lon min_time max_time))
                 self in
  let url := get_search_url (fetcher self1) "glider" "csv"
               min_lat max_lat min_lon max_lon min_time max_time in
  datasets self = None →
  urlopen url = Raise (HTTPError msg) →
  query min_lat max_lat min_lon max_lon min_time max_time delayed self w
  = (Raise (ExceptionFrom
       ("Error, no datasets found in supplied range. Try relaxing your constraints: "
        +:+ "{'time>=': " +:+ bound_repr min_time
        +:+ ", 'time<=': " +:+ bound_repr max_time
        +:+ ", 'latitude>=': " +:+ bound_repr min_lat
        +:+ ", 'latitude<=': " +:+ bound_repr max_lat
        +:+ ", 'longitude>=': " +:+ bound_repr min_lon
        +:+ ", 'longitude<=': " +:+ bound_repr max_lon +:+ "}")
       (HTTPError msg)),
     set_query_url url self1,
     {| heap := heap w; log := log w ++ [EvSearch url] |}).
Proof.
  intros self1 url Hnone Hurl. subst url self1. simpl in Hurl.
  unfold query, bind, modify_self, get_self, lift, try_except_http, emit, raise.
  simpl. rewrite Hnone. simpl. rewrite Hurl. do 4 f_equal.
  unfold format_item. simpl. now rewrite !str_append_assoc.
Qed.

(** The catalog that [query] builds from the three columns of a search
    response when [delayed] is false. *)
Lemma drop_delayed_run (df : ref) (self : GliderDataFetcher) (w : World)
    (t i ids : list cell) (name : option string) (ix : list string) :
  let d := {| data := [("Title", t); ("Institution", i); ("Dataset ID", ids)];
              index_name := name; index := ix |} in
  let mask := map (λ v, negb (Py.str_endswith (cell_str v) "delayed")) ids in
  let kept := select_mask mask ids in
  heap w !! df = Some d →
  Forall (λ v, is_nan v = false) ids →
  length ids = length ix →
  drop_delayed df self w
  = (Ok (length (heap w)), self,
     {| heap := heap w ++
          [{| data := [("Title", select_mask mask t);
                       ("Institution", select_mask mask i);
                       ("Dataset ID", kept);
                       ("info_url",
                        map (λ id, CStr (get_info_url (fetcher self) id "html")) kept)];
              index_name := name;
              index := select_mask mask ix |}];
        log := log w |}).
Proof.
  intros d mask kept Hd Hnan Hlen.
  unfold drop_delayed, bind, deref, lift, alloc, get_self, update, ret.
  rewrite Hd. cbv beta iota.
  change (getitem "Dataset ID" d) with (Ok (Series ids)). cbv beta iota.
  rewrite (not_endswith_series _ _ Hnan). fold mask. cbv beta iota.
  cbn [heap log]. rewrite list_lookup_middle by reflexivity.
  change (getitem "Dataset ID" (loc_mask mask d)) with (Ok (Series kept)).
  cbv beta iota. unfold setitem_list, iter_item.
  replace (Nat.eqb
             (length (map (λ dataset_id, CStr (get_info_url (fetcher self) dataset_id "html"))
                          kept))
             (nrows (loc_mask mask d))) with true.
  2:{ symmetry. apply Nat.eqb_eq. rewrite length_map. unfold kept, nrows. simpl.
      now apply length_select_mask. }
  cbv beta iota. cbn [heap log]. rewrite list_lookup_middle by reflexivity.
  do 2 f_equal.
  replace (length (heap w)) with (length (heap w) + 0) at 1 by lia.
  rewrite insert_app_r. reflexivity.
Qed.

(** Selecting the three catalog columns leaves no column [info_url]. *)
Lemma getitem_list_no_info_url (d0 d : DataFrame) :
  getitem_list ["Title"; "Institution"; "Dataset ID"] d0 = Ok d →
  has_column "info_url" d = false.
Proof.
  unfold getitem_list. intros H.
  destruct (columns_of _ d0) as [cs|] eqn:E; [|discriminate]. injection H as <-.
  apply columns_of_labels in E. apply has_column_false. unfold columns. simpl.
  intros Hin. apply list_elem_of_fmap in Hin as (c & Hc & Hin).
  rewrite Forall_forall in E. specialize (E c Hin). rewrite <- Hc in E.
  repeat (apply elem_of_cons in E as [E|E]; [discriminate|]).
  now apply not_elem_of_nil in E.
Qed.

(** What [drop_delayed] leaves behind whenever it returns: a new table, in
    which no id ends in [delayed] and every id has its info URL. *)
Lemma drop_delayed_inv (df : ref) (self : GliderDataFetcher) (w : World)
    (d : DataFrame) (r : ref) (s' : GliderDataFetcher) (w' : World) :
  heap w !! df = Some d →
  has_column "info_url" d = false →
  drop_delayed df self w = (Ok r, s', w') →
  ∃ cat kept,
    s' = self ∧ r = length (heap w) ∧ heap w' = heap w ++ [cat] ∧ log w' = log w
    ∧ getitem "Dataset ID" cat = Ok (Series kept)
    ∧ Forall (λ v, Py.str_endswith (cell_str v) "delayed" = false) kept
    ∧ getitem "info_url" cat
      = Ok (Series (map (λ id, CStr (get_info_url (fetcher self) id "html")) kept)).
Proof.
  intros Hd Hinfo Hrun.
  unfold drop_delayed, bind, deref, lift, alloc, get_self, update, ret in Hrun.
  rewrite Hd in Hrun. cbv beta iota in Hrun.
  destruct (getitem "Dataset ID" d) as [[ids|fr]|err] eqn:Eg; try discriminate.
  cbv beta iota in Hrun. unfold not_endswith in Hrun.
  destruct (existsb is_nan ids); [destruct (forallb is_nan ids); discriminate|].
  cbv beta iota in Hrun. cbn [heap log] in Hrun.
  rewrite list_lookup_middle in Hrun by reflexivity. cbv beta iota in Hrun.
  set (mask := map (λ v, negb (Py.str_endswith (cell_str v) "delayed")) ids) in *.
  assert (Ekept : columns_named "Dataset ID" (loc_mask mask d)
                  = [("Dataset ID", select_mask mask ids)]).
  { rewrite columns_named_loc_mask, (getitem_series _ _ _ Eg). reflexivity. }
  assert (Eg' : getitem "Dataset ID" (loc_mask mask d)
                = Ok (Series (select_mask mask ids))).
  { unfold getitem. now rewrite Ekept. }
  rewrite Eg' in Hrun. cbv beta iota in Hrun. cbn [iter_item] in Hrun.
  unfold setitem_list in Hrun.
  destruct (Nat.eqb _ _); [|discriminate]. cbv beta iota in Hrun.
  cbn [heap log] in Hrun. rewrite list_lookup_middle in Hrun by reflexivity.
  injection Hrun as <- <- <-.
  assert (Hinfo' : has_column "info_url" (loc_mask mask d) = false).
  { unfold has_column in *. now rewrite columns_loc_mask. }
  destruct (columns_named_setitem_new "info_url"
              (map (λ id, CStr (get_info_url (fetcher self) id "html"))
                   (select_mask mask ids))
              (loc_mask mask d) Hinfo') as [Hnew Hother].
  do 2 eexists. split; [reflexivity|]. split; [reflexivity|].
  split.
  { cbn [heap]. replace (length (heap w)) with (length (heap w) + 0) at 1 by lia.
    rewrite insert_app_r. reflexivity. }
  split; [reflexivity|].
  split; [|split].
  - unfold getitem. rewrite Hother by discriminate. now rewrite Ekept.
  - unfold mask. rewrite select_mask_negb. apply Forall_forall.
    intros v Hv. now apply list_elem_of_filter in Hv as [Hv _].
  - unfold getitem. now rewrite Hnew.
Qed.

(** Whatever the search response, a catalog that [query] returns without
    [delayed] lists no id ending in [delayed] and gives every id its info
    URL. *)
Lemma query_no_delayed_ids (min_lat max_lat min_lon max_lon min_time max_time : bound)
    (self : GliderDataFetcher) (w : World) (o : option ref)
    (s' : GliderDataFetcher) (w' : World) :
  datasets self = None →
  query min_lat max_lat min_lon max_lon min_time max_time false self w = (Ok o, s', w') →
  ∃ r cat kept,
    o = Some r ∧ datasets s' = Some r ∧ heap w' !! r = Some cat
    ∧ getitem "Dataset ID" cat = Ok (Series kept)
    ∧ Forall (λ v, Py.str_endswith (cell_str v) "delayed" = false) kept
    ∧ getitem "info_url" cat
      = Ok (Series (map (λ id, CStr (get_info_url (fetcher s') id "html")) kept)).
Proof.
  intros Hnone Hrun.
  unfold query, bind, modify_self, get_self, lift, try_except_http, emit, alloc, ret,
    raise in Hrun.
  simpl in Hrun. rewrite Hnone in Hrun. simpl in Hrun.
  destruct (urlopen _) as [body|[]]; try discriminate.
  destruct (read_csv body) as [d0|]; [|discriminate].
  destruct (getitem_list _ d0) as [d|] eqn:Esel; [|discriminate].
  apply getitem_list_no_info_url in Esel.
  match type of Hrun with
  | context [drop_delayed ?df ?s ?w0] =>
      destruct (drop_delayed df s w0) as [[[r|err] s2] w2] eqn:Edrop
  end; [|discriminate].
  apply (drop_delayed_inv _ _ _ d) in Edrop;
    [|cbn [heap]; now apply list_lookup_middle|exact Esel].
  destruct Edrop as (cat & kept & -> & -> & Hheap & Hlog & Hids & Hkept & Hurls).
  injection Hrun as <- <- <-.
  exists (length (heap w ++ [d])), cat, kept.
  split; [reflexivity|]. split; [reflexivity|].
  split; [rewrite Hheap; now apply list_lookup_middle|].
  split; [exact Hids|]. split; [exact Hkept|exact Hurls].
Qed.

(** C2: on a fetcher without catalog, whatever the search response, a
    catalog that [query] returns with [delayed] false lists no id ending in
    [delayed] and carries the info URL of each id it lists.  From a response
    that has the three columns with an id in every row, [query] does return:
    with [delayed] false the catalog's ids are the response's with those
    ending in [delayed] removed, with [delayed] true they are the
    response's ids, all of them. *)
Theorem query_delayed_filter
    (min_lat max_lat min_lon max_lon min_time max_time : bound)
    (self : GliderDataFetcher) (w : World) :
  let self1 := with_fetcher (set_constraints
                 (query_constraints min_lat max_lat min_lon max_lon min_time max_time))
                 self in
  let url := get_search_url (fetcher self1) "glider" "csv"
               min_lat max_lat min_lon max_lon min_time max_time in
  datasets self = None →
  (∀ o s' w',
      query min_lat max_lat min_lon max_lon min_time max_time false self w
      = (Ok o, s', w') →
      ∃ r cat kept,
        o = Some r ∧ datasets s' = Some r ∧ heap w' !! r = Some cat
        ∧ getitem "Dataset ID" cat = Ok (Series kept)
        ∧ Forall (λ v, Py.str_endswith (cell_str v) "delayed" = false) kept
        ∧ getitem "info_url" cat
          = Ok (Series (map (λ id, CStr (get_info_url (fetcher s') id "html")) kept)))
  ∧ (∀ body d0 t i ids,
      urlopen url = Ok body →
      read_csv body = Ok d0 →
      wf d0 →
      getitem "Title" d0 = Ok (Series t) →
      getitem "Institution" d0 = Ok (Series i) →
      getitem "Dataset ID" d0 = Ok (Series ids) →
      Forall (λ v, is_nan v = false) ids →
      (∃ r cat w',
          query min_lat max_lat min_lon max_lon min_time max_time false self w
          = (Ok (Some r), set_datasets (Some r) (set_query_url url self1), w')
          ∧ heap w' !! r = Some cat
          ∧ log w' = log w ++ [EvSearch url]
          ∧ getitem "Dataset ID" cat
            = Ok (Series (filter (λ v, Py.str_endswith (cell_str v) "delayed" = false)
                                 ids))
          ∧ getitem "info_url" cat
            = Ok (Series (map (λ id, CStr (get_info_url (fetcher self1) id "html"))
                    (filter (λ v, Py.str_endswith (cell_str v) "delayed" = false) ids))))
      ∧ (∃ r cat w',
          query min_lat max_lat min_lon max_lon min_time max_time true self w
          = (Ok (Some r), set_datasets (Some r) (set_query_url url self1), w')
          ∧ heap w' !! r = Some cat
          ∧ log w' = log w ++ [EvSearch url]
          ∧ getitem "Dataset ID" cat = Ok (Series ids)
          ∧ columns cat = ["Title"; "Institution"; "Dataset ID"])).
Proof.
  intros self1 url Hnone. split.
  { intros o s' w' Hrun. now apply (query_no_delayed_ids _ _ _ _ _ _ _ _ _ _ _ Hnone Hrun). }
  intros body d0 t i ids Hurl Hcsv Hwf Ht Hi Hids Hnan.
  subst url self1. simpl in Hurl.
  pose proof (wf_column _ _ _ Hwf Hids) as Hlen.
  pose proof (getitem_three _ _ _ _ Ht Hi Hids) as Hsel.
  split.
  - do 3 eexists. split.
    + unfold query, bind, modify_self, get_self, lift, try_except_http, emit, alloc, ret.
      simpl. rewrite Hnone. simpl. rewrite Hurl, Hcsv. rewrite Hsel.
      cbn [negb heap log].
      erewrite drop_delayed_run; [reflexivity| |exact Hnan|exact Hlen].
      cbn [heap]. now rewrite list_lookup_middle.
    + cbn [heap log]. rewrite length_app, Nat.add_comm. cbn [length Nat.add].
      split; [now rewrite list_lookup_middle; [|rewrite length_app; simpl; lia]|].
      split; [reflexivity|].
      rewrite <- select_mask_negb. split; reflexivity.
  - do 3 eexists. split.
    + unfold query, bind, modify_self, get_self, lift, try_except_http, emit, alloc, ret.
      simpl. rewrite Hnone. simpl. rewrite Hurl, Hcsv. rewrite Hsel. reflexivity.
    + cbn [heap log]. split; [now rewrite list_lookup_middle|].
      repeat split; reflexivity.
Qed.

End Query.

(** ** Concatenation *)

Section ConcatFacts.
Import Pandas Run Frames.

Lemma lookup_concat_block {A : Type} (ls : list (list A)) (k i : nat) (x : list A) (v : A) :
  ls !! k = Some x → x !! i = Some v →
  concat ls !! (sum_list (map length (take k ls)) + i) = Some v.
Proof.
  revert k. induction ls as [|y ls IH]; intros [|k] Hk Hi; simpl in *; try discriminate.
  - injection Hk as ->. now apply lookup_app_l_Some.
  - rewrite <- Nat.add_assoc, lookup_app_r by lia.
    replace (length y + (sum_list (map length (take k ls)) + i) - length y)
      with (sum_list (map length (take k ls)) + i) by lia.
    now apply IH.
Qed.

Lemma length_concat_sum {A : Type} (ls : list (list A)) :
  length (concat ls) = sum_list (map length ls).
Proof.
  induction ls as [|x ls IH]; simpl; [reflexivity|]. now rewrite length_app, IH.
Qed.

Lemma pd_concat_index (ds : list DataFrame) (out : DataFrame) :
  pd_concat ds = Ok out → index out = concat (map index ds).
Proof.
  unfold pd_concat. destruct ds as [|d0 r]; [discriminate|].
  destruct (forallb _ _); [|destruct (forallb _ _)]; intros H; inversion H; reflexivity.
Qed.

Lemma pd_concat_nrows (ds : list DataFrame) (out : DataFrame) :
  pd_concat ds = Ok out → nrows out = sum_list (map nrows ds).
Proof.
  intros H. unfold nrows at 1. rewrite (pd_concat_index _ _ H), length_concat_sum.
  now rewrite map_map.
Qed.

(** When the columns of two tables correspond position by position, so do
    the first columns under a label. *)
Lemma first_named_related (P : list cell → list cell → Prop) (label : string)
    (cs1 cs2 : list (string * list cell)) :
  Forall2 (λ c1 c2, fst c1 = fst c2 ∧ P (snd c1) (snd c2)) cs1 cs2 →
  ∀ c1 r1, filter (λ c, fst c = label) cs1 = c1 :: r1 →
  ∃ c2 r2, filter (λ c, fst c = label) cs2 = c2 :: r2 ∧ P (snd c1) (snd c2).
Proof.
  induction 1 as [|x y cs1 cs2 [Hfst HP] _ IH]; intros c1 r1 Hf.
  - rewrite filter_nil in Hf. discriminate.
  - destruct (decide (fst x = label)) as [Hx|Hx].
    + rewrite filter_cons_True in Hf by assumption. injection Hf as -> _.
      rewrite filter_cons_True by congruence. eauto.
    + rewrite filter_cons_False in Hf by assumption.
      rewrite filter_cons_False by congruence. eauto.
Qed.

Lemma sum_take_nrows (f : DataFrame → list cell) (ds : list DataFrame) (k : nat) :
  Forall (λ d, length (f d) = nrows d) ds →
  sum_list (map length (take k (map f ds))) = sum_list (map nrows (take k ds)).
Proof.
  intros H. revert k. induction H as [|d ds Hd _ IH]; intros [|k]; simpl; try reflexivity.
  now rewrite Hd, IH.
Qed.

Lemma union_labels_elem (ds : list DataFrame) (x : string) :
  x ∈ concat (map columns ds) → x ∈ union_labels ds.
Proof.
  unfold union_labels. generalize (concat (map columns ds)). intros l Hx.
  assert (H : ∀ acc, x ∈ acc ∨ x ∈ l →
            x ∈ fold_left (λ acc c, if decide (c ∈ acc) then acc else acc ++ [c]) l acc).
  { clear Hx. induction l as [|y l IH]; intros acc [Ha|Hl]; simpl.
    - assumption.
    - now apply not_elem_of_nil in Hl.
    - apply IH. left. destruct (decide (y ∈ acc)); [assumption|].
      apply elem_of_app. now left.
    - apply IH. apply elem_of_cons in Hl as [->|Hl]; [left|now right].
      destruct (decide (y ∈ acc)); [assumption|]. apply elem_of_app. right. now left. }
  apply H. now right.
Qed.

Lemma first_named_map (g : string → list cell) (labels : list string) (label : string) :
  label ∈ labels →
  ∃ r, filter (λ c : string * list cell, fst c = label) (map (λ l, (l, g l)) labels)
       = (label, g label) :: r.
Proof.
  induction labels as [|y labels IH]; intros Hin; [now apply not_elem_of_nil in Hin|].
  simpl. destruct (decide (y = label)) as [->|Hy].
  - rewrite filter_cons_True by reflexivity. eauto.
  - rewrite filter_cons_False by assumption. apply IH.
    apply elem_of_cons in Hin as [->|Hin]; [now destruct Hy|assumption].
Qed.

Lemma length_column_or_nan (label : string) (d : DataFrame) :
  wf d → length (column_or_nan label d) = nrows d.
Proof.
  intros Hwf. unfold column_or_nan.
  destruct (columns_named label d) as [|c r] eqn:E; [apply length_replicate|].
  assert (Hin : c ∈ columns_named label d) by (rewrite E; left).
  unfold columns_named in Hin. apply list_elem_of_filter in Hin as [_ Hin].
  unfold wf in Hwf. rewrite Forall_forall in Hwf. now apply Hwf.
Qed.

(** Concatenation keeps every cell: the cell at row [i] of the [k]-th table
    is found in the result under the same label, [i] rows below the rows of
    the tables before it. *)
Lemma pd_concat_cell (ds : list DataFrame) (out : DataFrame) (k : nat)
    (t : DataFrame) (label : string) (i : nat) (v : cell) :
  pd_concat ds = Ok out → Forall wf ds → ds !! k = Some t →
  cell_at t label i = Some v →
  cell_at out label (sum_list (map nrows (take k ds)) + i) = Some v.
Proof.
  intros Hc Hwf Hk Hcell. unfold pd_concat in Hc.
  destruct ds as [|d0 r] eqn:Eds; [discriminate|]. rewrite <- Eds in *.
  unfold cell_at in Hcell.
  destruct (columns_named label t) as [|c1 r1] eqn:E1; [discriminate|].
  destruct (forallb (λ d, bool_decide (columns d = columns d0)) ds) eqn:Esame.
  - (* the tables carry the same labels *)
    injection Hc as <-. rewrite forallb_forall in Esame.
    assert (Hcols : ∀ d, d ∈ ds → columns d = columns d0).
    { intros d Hd. apply list_elem_of_In, Esame in Hd. now apply bool_decide_eq_true in Hd. }
    assert (Hlen : ∀ d, d ∈ ds → length (data d) = length (data d0)).
    { intros d Hd. apply Hcols in Hd. unfold columns in Hd.
      apply (f_equal length) in Hd. now rewrite !length_map in Hd. }
    assert (Ht : t ∈ ds) by (eapply list_elem_of_lookup_2, Hk).
    set (P := λ v1 v2 : list cell,
           v1 !! i = Some v → v2 !! (sum_list (map nrows (take k ds)) + i) = Some v).
    destruct (first_named_related P label (data t)
                (imap (λ j c, (fst c, stack_at j ds)) (data d0))) with (c1 := c1) (r1 := r1)
      as (c2 & r2 & E2 & HP); [|exact E1|].
    + apply Forall2_same_length_lookup_2; [rewrite length_imap; now apply Hlen|].
      intros j x y Hx Hy. rewrite list_lookup_imap in Hy.
      destruct (data d0 !! j) as [c0|] eqn:E0; [|discriminate]. injection Hy as <-.
      simpl. split.
      * pose proof (Hcols t Ht) as Hct. unfold columns in Hct.
        apply (f_equal (λ l, l !! j)) in Hct.
        rewrite !list_lookup_fmap, Hx, E0 in Hct. now injection Hct.
      * unfold P. intros Hi. unfold stack_at.
        rewrite <- (sum_take_nrows (λ d, default [] (snd <$> data d !! j))).
        -- apply lookup_concat_block with (x := snd x); [|assumption].
           rewrite list_lookup_fmap, Hk. simpl. now rewrite Hx.
        -- apply Forall_forall. intros d Hd.
           pose proof (Hlen d Hd) as Hl.
           destruct (data d !! j) as [c|] eqn:Ej.
           ++ simpl. rewrite Forall_forall in Hwf. specialize (Hwf d Hd).
              unfold wf in Hwf. rewrite Forall_lookup in Hwf. now apply (Hwf j c).
           ++ apply lookup_ge_None in Ej. apply lookup_lt_Some in E0. lia.
    + unfold cell_at, columns_named. simpl. rewrite E2. now apply HP.
  - destruct (forallb unique_labels ds); [|discriminate]. injection Hc as <-.
    (* otherwise: the union of the labels *)
    assert (Hin : label ∈ union_labels ds).
    { apply union_labels_elem. apply list_elem_of_In, in_concat.
      exists (columns t). split.
      - apply in_map, list_elem_of_In. eapply list_elem_of_lookup_2, Hk.
      - apply list_elem_of_In. unfold columns. apply list_elem_of_fmap.
        exists c1. assert (Hc1 : c1 ∈ columns_named label t) by (rewrite E1; left).
        unfold columns_named in Hc1. apply list_elem_of_filter in Hc1 as [Hl Hc1].
        now split. }
    destruct (first_named_map (λ l, concat (map (column_or_nan l) ds)) _ _ Hin) as [r2 E2].
    unfold cell_at, columns_named. simpl. rewrite E2. simpl.
    rewrite <- (sum_take_nrows (column_or_nan label)).
    + apply lookup_concat_block with (x := snd c1); [|assumption].
      rewrite list_lookup_fmap, Hk. simpl. unfold column_or_nan. now rewrite E1.
    + eapply Forall_impl; [exact Hwf|]. intros d Hd. now apply length_column_or_nan.
Qed.

(** Tables that carry the same labels can be concatenated. *)
Lemma pd_concat_same_labels (d0 : DataFrame) (ds : list DataFrame) :
  Forall (λ d, columns d = columns d0) ds → ∃ out, pd_concat (d0 :: ds) = Ok out.
Proof.
  intros H. unfold pd_concat.
  assert (E : forallb (λ d, bool_decide (columns d = columns d0)) (d0 :: ds) = true).
  { apply forallb_forall. intros d [<-|Hin]; apply bool_decide_eq_true; [reflexivity|].
    rewrite Forall_forall in H. now apply H, list_elem_of_In. }
  rewrite E. eauto.
Qed.

End ConcatFacts.

(** ** Running the monad *)

Section RunFacts.
Import Pandas Run.

Lemma bind_ok {S A B : Type} (m : M S A) (k : A → M S B) (s s' : S) (w w' : World)
    (a : A) :
  m s w = (Ok a, s', w') → bind m k s w = k a s' w'.
Proof. intros H. unfold bind. now rewrite H. Qed.

Lemma deref_run {S : Type} (r : ref) (s : S) (w : World) (d : DataFrame) :
  heap w !! r = Some d → deref r s w = (Ok d, s, w).
Proof. intros H. unfold deref. now rewrite H. Qed.

End RunFacts.

(** ** The Data Fetcher: [GliderDataFetcher.to_pandas] *)

Section ToPandas.
Import Pandas Run Frames Services Fetchers.
Context `{Sv : Services}.

Lemma wf_standardise (url : string) (d : DataFrame) :
  wf d → wf (standardise url d).
Proof.
  intros Hwf. rewrite standardise_unfold. unfold wf, setitem_scalar, setitem. simpl.
  change (nrows _) with (nrows d).
  assert (Hrel : Forall (λ c : string * list cell, length (snd c) = nrows d)
                   (map (λ c, (output_label (fst c), snd c)) (data d))).
  { apply Forall_forall. intros c Hc. apply list_elem_of_fmap in Hc as (c0 & -> & Hc0).
    simpl. unfold wf in Hwf. rewrite Forall_forall in Hwf. now apply Hwf. }
  destruct (has_column _ _).
  - unfold overwrite. apply Forall_forall. intros c Hc.
    apply list_elem_of_fmap in Hc as (c0 & -> & Hc0).
    rewrite Forall_forall in Hrel. specialize (Hrel c0 Hc0).
    destruct (String.eqb (fst c0) "dataset_url"); [simpl; apply length_replicate|assumption].
  - apply Forall_app. split; [assumption|]. constructor; [|constructor].
    simpl. apply length_replicate.
Qed.

(** One turn of the loop: the id becomes the active one, one download is
    made, and its table is stored in standardised form. *)
Lemma fetch_one_run (id : cell) (self : GliderDataFetcher) (w : World) (t : DataFrame) :
  tabledap (set_dataset_id (Some id) (fetcher self)) (Some "time (UTC)") = Ok t →
  fetch_one id self w
  = (Ok (length (heap w)),
     with_fetcher (set_dataset_id (Some id)) self,
     {| heap := heap w ++ [standardise (dataset_url_of (fetcher self) id) t];
        log := log w ++ [EvTable (set_dataset_id (Some id) (fetcher self))] |}).
Proof.
  intros Ht.
  unfold fetch_one, erddap_to_pandas, bind, modify_self, get_self, emit, lift, alloc.
  cbn [fetcher with_fetcher heap log]. rewrite Ht. cbn [heap log].
  erewrite standardise_df_run by (cbn [heap]; now apply list_lookup_middle).
  cbn [heap log]. unfold dataset_url_of. do 2 f_equal.
  replace (length (heap w)) with (length (heap w) + 0) at 1 by lia.
  now rewrite insert_app_r.
Qed.

(** The loop of [to_pandas]: one download per id, in the order of [ids]; the
    standardised tables are stored one after the other. *)
Lemma fetch_loop (c : ERDDAP) (ids : list cell) (raw : list DataFrame) :
  Forall2 (λ id t, tabledap (set_dataset_id (Some id) c) (Some "time (UTC)") = Ok t)
          ids raw →
  ∀ (self : GliderDataFetcher) (w : World),
    (∀ v, set_dataset_id v (fetcher self) = set_dataset_id v c) →
    map_m fetch_one ids self w
    = (Ok (seq (length (heap w)) (length ids)),
       after_loop ids self,
       {| heap := heap w ++ normalised c ids raw;
          log := log w ++ map (λ id, EvTable (set_dataset_id (Some id) c)) ids |}).
Proof.
  induction 1 as [|id t ids raw Ht _ IH]; intros self w Hself.
  - simpl. unfold ret. rewrite !app_nil_r. now destruct w.
  - cbn [map_m]. unfold bind at 1.
    rewrite (fetch_one_run id self w t) by (now rewrite Hself).
    unfold bind at 1. rewrite IH by (intros v; apply Hself).
    cbn [heap log]. unfold ret.
    rewrite length_app, Nat.add_comm. cbn [length Nat.add].
    unfold dataset_url_of. rewrite Hself.
    cbn [normalised zip_with map seq length after_loop fold_left].
    now rewrite <- !app_assoc.
Qed.

(** Reading back tables that were stored one after the other. *)
Lemma map_m_deref {St : Type} (tables : list DataFrame) :
  ∀ (h0 : list DataFrame) (s : St) (w : World),
    heap w = h0 ++ tables →
    map_m deref (seq (length h0) (length tables)) s w = (Ok tables, s, w).
Proof.
  induction tables as [|t tables IH]; intros h0 s w Hw; [reflexivity|].
  cbn [length seq map_m].
  erewrite bind_ok; [|apply deref_run; rewrite Hw; now apply list_lookup_middle].
  replace (S (length h0)) with (length (h0 ++ [t])) by (rewrite length_app; simpl; lia).
  erewrite bind_ok; [|apply IH; now rewrite <- app_assoc]. reflexivity.
Qed.

(** Without an active dataset id and without a catalog, [to_pandas] raises
    at once. *)
Lemma to_pandas_no_source (self : GliderDataFetcher) (w : World) :
  truth_dataset_id (dataset_id (fetcher self)) = false →
  datasets self = None →
  to_pandas self w
  = (Raise (ValueError ("Must provide a "
                        +:+ format_dataset_id (dataset_id (fetcher self))
                        +:+ " or `query` terms to download data.")),
     self, w).
Proof.
  intros Hid Hcat. unfold to_pandas, bind, get_self, raise.
  now rewrite Hid, Hcat.
Qed.

(** C3: a fetcher that has neither a dataset id nor a catalog makes
    [to_pandas] raise [ValueError] with the message below; the fetcher, the
    tables and the request log are untouched, so nothing was downloaded. *)
Theorem to_pandas_unconfigured (self : GliderDataFetcher) (w : World) :
  dataset_id (fetcher self) = None →
  datasets self = None →
  to_pandas self w
  = (Raise (ValueError "Must provide a None or `query` terms to download data."),
     self, w).
Proof.
  intros Hid Hcat. rewrite to_pandas_no_source; [|now rewrite Hid|assumption].
  now rewrite Hid.
Qed.

(** C10: with no active dataset id and a catalog that lists no dataset id,
    [to_pandas] raises [ValueError]: there is nothing to concatenate. *)
Theorem to_pandas_empty_catalog (self : GliderDataFetcher) (w : World)
    (cat : ref) (catalog : DataFrame) :
  truth_dataset_id (dataset_id (fetcher self)) = false →
  datasets self = Some cat →
  heap w !! cat = Some catalog →
  getitem "Dataset ID" catalog = Ok (Series []) →
  to_pandas self w = (Raise (ValueError "No objects to concatenate"), self, w).
Proof.
  intros Hid Hcat Hheap Hids.
  unfold to_pandas, bind, get_self, deref, lift.
  now rewrite Hid, Hcat, Hheap, Hids.
Qed.

(** C4: with no active dataset id and a catalog of ids whose downloads all
    succeed, [to_pandas] makes one download per id in catalog order and
    returns a new table, the concatenation [out] of the standardised tables:
    its rows are as many as the downloaded tables have together, its row
    labels are theirs in catalog order, and the cell at row [i] of the
    [k]-th table sits [i] rows below the rows of the tables before it. *)
Theorem to_pandas_concat (self : GliderDataFetcher) (w : World) (cat : ref)
    (catalog : DataFrame) (ids : list cell) (raw : list DataFrame) (out : DataFrame) :
  let c := fetcher self in
  truth_dataset_id (dataset_id c) = false →
  datasets self = Some cat →
  heap w !! cat = Some catalog →
  getitem "Dataset ID" catalog = Ok (Series ids) →
  Forall2 (λ id t, tabledap (set_dataset_id (Some id) c) (Some "time (UTC)") = Ok t)
          ids raw →
  Forall wf raw →
  pd_concat (normalised c ids raw) = Ok out →
  ∃ r w',
    to_pandas self w = (Ok r, after_loop ids self, w')
    ∧ heap w' !! r = Some out
    ∧ (∀ r0, r0 < length (heap w) → heap w' !! r0 = heap w !! r0)
    ∧ log w' = log w ++ map (λ id, EvTable (set_dataset_id (Some id) c)) ids
    ∧ nrows out = sum_list (map nrows raw)
    ∧ index out = concat (map index raw)
    ∧ (∀ k id t label i v,
         ids !! k = Some id → raw !! k = Some t →
         cell_at (standardise (dataset_url_of c id) t) label i = Some v →
         cell_at out label (sum_list (map nrows (take k raw)) + i) = Some v).
Proof.
  intros c Hid Hcat Hheap Hids Hfetch Hwf Hconcat.
  pose proof (Forall2_length _ _ _ Hfetch) as Hlen.
  assert (Hnrows : map nrows (normalised c ids raw) = map nrows raw).
  { clear -Hlen. unfold normalised. revert raw Hlen.
    induction ids as [|id ids IH]; intros [|t raw] Hlen; simpl in *;
      try reflexivity; try discriminate.
    f_equal. apply IH. now injection Hlen. }
  assert (Hindex : map index (normalised c ids raw) = map index raw).
  { clear -Hlen. unfold normalised. revert raw Hlen.
    induction ids as [|id ids IH]; intros [|t raw] Hlen; simpl in *;
      try reflexivity; try discriminate.
    f_equal. apply IH. now injection Hlen. }
  assert (Hwfn : Forall wf (normalised c ids raw)).
  { clear -Hwf. unfold normalised. revert ids.
    induction Hwf as [|t raw Ht _ IH]; intros [|id ids]; simpl; constructor.
    - now apply wf_standardise.
    - apply IH. }
  assert (Hn : length (normalised c ids raw) = length ids).
  { unfold normalised. rewrite length_zip_with. lia. }
  exists (length (heap w) + length ids). eexists. split.
  - unfold to_pandas, bind at 1, get_self. fold c. rewrite Hid, Hcat.
    unfold bind at 1, deref at 1. rewrite Hheap.
    unfold bind at 1, lift at 1. rewrite Hids. cbn [iter_item].
    unfold bind at 1. rewrite (fetch_loop c ids raw Hfetch) by reflexivity.
    unfold bind at 1. rewrite <- Hn at 1.
    rewrite (map_m_deref (normalised c ids raw) (heap w)) by reflexivity.
    unfold bind, lift, alloc. rewrite Hconcat. cbn [heap log].
    rewrite length_app, Hn. reflexivity.
  - cbn [heap log]. split.
    { rewrite <- Hn, <- length_app. now apply list_lookup_middle. }
    split.
    { intros r0 Hr0. rewrite <- app_assoc. now apply lookup_app_l. }
    split; [reflexivity|].
    split; [rewrite (pd_concat_nrows _ _ Hconcat); now rewrite Hnrows|].
    split; [rewrite (pd_concat_index _ _ Hconcat); now rewrite Hindex|].
    intros k id t label i v Hk Ht Hcell.
    replace (map nrows (take k raw)) with (map nrows (take k (normalised c ids raw)))
      by (now rewrite <- !firstn_map, Hnrows).
    apply (pd_concat_cell _ _ _ (standardise (dataset_url_of c id) t) _ _ _ Hconcat Hwfn);
      [|exact Hcell].
    unfold normalised. rewrite lookup_zip_with, Hk. simpl. now rewrite Ht.
Qed.

(** Downloads with the same labels have standardised forms with the same
    labels, so their concatenation is defined. *)
Lemma normalised_concat_defined (c : ERDDAP) (id : cell) (ids : list cell)
    (t : DataFrame) (raw : list DataFrame) :
  length ids = length raw →
  Forall (λ t', columns t' = columns t) raw →
  ∃ out, pd_concat (normalised c (id :: ids) (t :: raw)) = Ok out.
Proof.
  intros Hlen Hsame. cbn [normalised zip_with]. apply pd_concat_same_labels.
  clear Hlen. revert ids. induction Hsame as [|t' raw Ht' _ IH]; intros [|id' ids];
    simpl; constructor.
  - now rewrite !columns_standardise, Ht'.
  - apply IH.
Qed.

End ToPandas.

(** ** The Dataset ID Lister: [DatasetList.get_ids] *)

Section Lister.
Import Pandas Run Frames Services Fetchers.
Context `{Sv : Services}.

Lemma list_remove_None {A : Type} `{EqDecision A} (x : A) (l : list A) :
  x ∉ l → Py.list_remove x l = None.
Proof.
  induction l as [|y l IH]; intros Hx; simpl; [reflexivity|].
  destruct (decide (y = x)) as [->|Hy]; [destruct Hx; left|].
  rewrite IH; [reflexivity|]. intros Hin. apply Hx. now right.
Qed.

(** On a list without repetitions, [remove] leaves no occurrence behind. *)
Lemma list_remove_NoDup {A : Type} `{EqDecision A} (x : A) (l : list A) :
  NoDup l → x ∈ l → Py.list_remove x l = Some (filter (λ y, y ≠ x) l).
Proof.
  induction 1 as [|y l Hy Hnd IH]; intros Hx; [now apply not_elem_of_nil in Hx|].
  simpl. destruct (decide (y = x)) as [->|Hne].
  - rewrite filter_cons_False by (intros Hn; now apply Hn). f_equal.
    clear IH Hx Hnd. induction l as [|z l IH]; [reflexivity|].
    rewrite filter_cons_True.
    + f_equal. apply IH. intros Hin. apply Hy. now right.
    + intros ->. apply Hy. left.
  - rewrite filter_cons_True by assumption.
    apply elem_of_cons in Hx as [->|Hx]; [now destruct Hne|].
    now rewrite IH.
Qed.

(** On the supported server [get_ids] makes one download of [allDatasets]
    and removes the first occurrence of the sentinel from its id column. *)
Lemma get_ids_run (self : DatasetList) (w : World) (d : DataFrame) (ids : list cell) :
  let c := set_dataset_id (Some (CStr "allDatasets")) (e self) in
  let w1 := {| heap := heap w ++ [d]; log := log w ++ [EvTable c] |} in
  Run.server (e self) = "https://gliders.ioos.us/erddap" →
  tabledap c None = Ok d →
  getitem "datasetID" d = Ok (Series ids) →
  get_ids self w
  = match Py.list_remove (CStr "allDatasets") ids with
    | Some l => (Ok l, set_dataset_ids l (with_e (λ _, c) self), w1)
    | None => (Raise (ValueError "list.remove(x): x not in list"),
               with_e (λ _, c) self, w1)
    end.
Proof.
  intros c w1 Hsrv Hd Hids.
  unfold get_ids, erddap_to_pandas, bind, get_self, modify_self, emit, lift, alloc,
    deref, raise, ret.
  rewrite Hsrv. cbn [String.eqb Ascii.eqb Bool.eqb e with_e heap log].
  fold c. rewrite Hd. cbn [heap log].
  rewrite list_lookup_middle by reflexivity. rewrite Hids. cbn [to_list].
  destruct (Py.list_remove (CStr "allDatasets") ids); reflexivity.
Qed.

(** C6: on the supported server, for an [allDatasets] table whose ids do
    not repeat, [get_ids] returns the ids other than the sentinel
    [allDatasets] when the sentinel is listed, and no list it returns holds
    the sentinel; on every other server it raises [ValueError] with the
    state, the tables and the request log untouched. *)
Theorem get_ids_sentinel :
  (∀ (self : DatasetList) (w : World) (d : DataFrame) (ids : list cell),
      Run.server (e self) = "https://gliders.ioos.us/erddap" →
      tabledap (set_dataset_id (Some (CStr "allDatasets")) (e self)) None = Ok d →
      getitem "datasetID" d = Ok (Series ids) →
      NoDup ids →
      (CStr "allDatasets" ∈ ids →
       ∃ s' w', get_ids self w
                = (Ok (filter (λ v, v ≠ CStr "allDatasets") ids), s', w')
                ∧ dataset_ids s' = Some (filter (λ v, v ≠ CStr "allDatasets") ids))
      ∧ (∀ l s' w', get_ids self w = (Ok l, s', w') → CStr "allDatasets" ∉ l))
  ∧ (∀ (self : DatasetList) (w : World),
      Run.server (e self) ≠ "https://gliders.ioos.us/erddap" →
      get_ids self w
      = (Raise (ValueError ("The " +:+ Run.server (e self)
                            +:+ " does not supported this operation.")),
         self, w)).
Proof.
  split.
  - intros self w d ids Hsrv Hd Hids Hnd.
    pose proof (get_ids_run self w d ids Hsrv Hd Hids) as Hrun. cbv zeta in Hrun.
    assert (Hfilter : CStr "allDatasets" ∉ filter (λ v, v ≠ CStr "allDatasets") ids).
    { intros Hin. apply list_elem_of_filter in Hin as [Hne _]. now apply Hne. }
    split.
    + intros Hin. rewrite (list_remove_NoDup _ _ Hnd Hin) in Hrun.
      do 2 eexists. split; [exact Hrun|reflexivity].
    + intros l s' w' Hret. rewrite Hrun in Hret.
      destruct (decide (CStr "allDatasets" ∈ ids)) as [Hin|Hout].
      * rewrite (list_remove_NoDup _ _ Hnd Hin) in Hret. now inversion Hret; subst.
      * rewrite (list_remove_None _ _ Hout) in Hret. discriminate.
  - intros self w Hsrv. unfold get_ids, bind, get_self, raise.
    apply String.eqb_neq in Hsrv. now rewrite Hsrv.
Qed.

End Lister.

(** ** The properties on the sample world *)

Section OnSample.
Import Pandas Run Frames Services Fetchers Sample.

Lemma canonical_rename_table : canonical rename_table.
Proof.
  split; [|reflexivity].
  intros k v Hk. unfold rename_table in Hk.
  apply lookup_insert_Some in Hk as [[<- <-]|[_ Hk]]; [split; reflexivity|].
  apply lookup_insert_Some in Hk as [[<- <-]|[_ Hk]]; [split; reflexivity|].
  now rewrite lookup_empty in Hk.
Qed.

Example init_fresh : @GliderDataFetcher_init online _server = Ok fresh.
Proof. reflexivity. Qed.

(** A rename table that renames its own targets: the second run of the
    Normalizer moves the column on, so the hypothesis of C8 is needed. *)
Example chained_rename_not_idempotent :
  let d := {| data := [("Temp", [CStr "1"])]; index_name := None; index := ["a"] |} in
  columns (@standardise chained "u" d) = ["t"; "dataset_url"]
  ∧ columns (@standardise chained "u" (@standardise chained "u" d))
    = ["temperature"; "dataset_url"].
Proof. split; reflexivity. Qed.

(** C9, counterexample: after the call, the table object that was passed
    in is no longer the table it was. *)
Lemma standardise_df_changes_its_argument :
  ∃ w', @standardise_df online unit 0 url_ru29 tt one_table = (Ok 0, tt, w')
        ∧ heap one_table !! 0 = Some table_ru29
        ∧ heap w' !! 0 = Some standard_ru29
        ∧ heap w' !! 0 ≠ heap one_table !! 0.
Proof.
  eexists. split; [reflexivity|]. split; [reflexivity|]. split; [reflexivity|].
  discriminate.
Qed.

Lemma standardise_df_in_place_witness :
  ∃ w', @standardise_df online unit 0 url_ru29 tt one_table = (Ok 0, tt, w')
        ∧ heap w' !! 0 = Some (@standardise online url_ru29 table_ru29)
        ∧ (∀ r, r ≠ 0 → heap w' !! r = heap one_table !! r)
        ∧ length (heap w') = length (heap one_table)
        ∧ log w' = log one_table.
Proof.
  apply (@standardise_df_in_place online unit 0 url_ru29 tt one_table table_ru29).
  reflexivity.
Defined.

(** C5, counterexample: renaming first and lower-casing afterwards would
    give the label [temperature (celsius)]; the output has [temperature]. *)
Lemma standardise_df_lowers_before_renaming :
  ∃ out w', @standardise_df online unit 0 url_ru29 tt one_table = (Ok 0, tt, w')
    ∧ heap w' !! 0 = Some out
    ∧ columns out = ["temperature"; "pressure"; "dataset_url"]
    ∧ map (λ c, Py.str_lower (rename_label rename_table c)) (columns table_ru29)
      = ["temperature (celsius)"; "pressure"]
    ∧ "temperature (celsius)" ∉ columns out.
Proof.
  do 2 eexists. split; [reflexivity|]. split; [reflexivity|].
  split; [reflexivity|]. split; [reflexivity|].
  intros Hin. repeat (apply elem_of_cons in Hin as [Hin|Hin]; [discriminate|]).
  now apply not_elem_of_nil in Hin.
Qed.

Lemma standardise_df_columns_witness :
  ∃ out w', @standardise_df online unit 0 url_ru29 tt one_table = (Ok 0, tt, w')
    ∧ heap w' !! 0 = Some out
    ∧ columns out
      = map (λ c, rename_label rename_table (Py.str_lower c)) (columns table_ru29)
        ++ (if decide ("dataset_url"
                       ∈ map (λ c, rename_label rename_table (Py.str_lower c))
                             (columns table_ru29))
            then [] else ["dataset_url"])
    ∧ nrows out = nrows table_ru29
    ∧ columns_named "dataset_url" out ≠ []
    ∧ Forall (λ c, snd c = replicate (nrows table_ru29) (CStr url_ru29))
             (columns_named "dataset_url" out).
Proof.
  apply (@standardise_df_columns online unit 0 url_ru29 tt one_table table_ru29).
  reflexivity.
Defined.

Lemma standardise_df_idempotent_witness :
  @standardise_df online unit 0 url_ru29 tt one_table
  = (Ok 0, tt, {| heap := [standard_ru29]; log := [] |})
  ∧ @standardise_df online unit 0 url_ru29 tt {| heap := [standard_ru29]; log := [] |}
    = (Ok 0, tt, {| heap := [standard_ru29]; log := [] |}).
Proof.
  split; [reflexivity|].
  apply (@standardise_df_idempotent online unit 0 url_ru29 tt one_table
           canonical_rename_table).
  reflexivity.
Defined.

(** C1: on a fetcher that holds the catalog of a first [query], a second
    [query] does not return that catalog.  It raises [ValueError], because
    [not self.datasets] asks the catalog table for a truth value; the new
    constraints are stored, the tables and the request log are as the first
    call left them. *)
Theorem query_twice_raises :
  ∃ r s1 w1,
    @query online (b "30") (b "35") (b "-75") (b "-70")
      (b "'2020-01-01'") (b "'2020-02-01'") false fresh empty_world
    = (Ok (Some r), s1, w1)
    ∧ datasets s1 = Some r
    ∧ heap w1 !! r = Some catalog
    ∧ @query online (b "10") (b "20") (b "-75") (b "-70")
        (b "'2021-01-01'") (b "'2021-02-01'") false s1 w1
      = (Raise (ValueError
           "The truth value of a DataFrame is ambiguous. Use a.empty, a.bool(), a.item(), a.any() or a.all()."),
         with_fetcher (set_constraints
           (query_constraints (b "10") (b "20") (b "-75") (b "-70")
              (b "'2021-01-01'") (b "'2021-02-01'"))) s1,
         w1).
Proof.
  do 3 eexists. split; [vm_compute; reflexivity|].
  split; [reflexivity|]. split; [reflexivity|].
  eapply query_with_catalog. reflexivity.
Qed.

Lemma query_http_error_witness :
  let self1 := with_fetcher (set_constraints
                 (query_constraints (b "30") (b "35") (b "-75") (b "-70")
                    (b "'2020-01-01'") (b "'2020-02-01'"))) fresh in
  let url := search_url (fetcher self1) "glider" "csv" (b "30") (b "35") (b "-75")
               (b "-70") (b "'2020-01-01'") (b "'2020-02-01'") in
  @query offline (b "30") (b "35") (b "-75") (b "-70")
    (b "'2020-01-01'") (b "'2020-02-01'") false fresh empty_world
  = (Raise (ExceptionFrom
       ("Error, no datasets found in supplied range. Try relaxing your constraints: "
        +:+ "{'time>=': " +:+ "'2020-01-01'"
        +:+ ", 'time<=': " +:+ "'2020-02-01'"
        +:+ ", 'latitude>=': " +:+ "30"
        +:+ ", 'latitude<=': " +:+ "35"
        +:+ ", 'longitude>=': " +:+ "-75"
        +:+ ", 'longitude<=': " +:+ "-70" +:+ "}")
       (HTTPError "500 Internal Server Error")),
     set_query_url url self1,
     {| heap := []; log := [EvSearch url] |}).
Proof.
  apply (@query_http_error offline (b "30") (b "35") (b "-75") (b "-70")
           (b "'2020-01-01'") (b "'2020-02-01'") false fresh empty_world
           "500 Internal Server Error").
  - reflexivity.
  - reflexivity.
Defined.

Lemma query_delayed_filter_witness :
  let run := @query online (b "30") (b "35") (b "-75") (b "-70")
               (b "'2020-01-01'") (b "'2020-02-01'") in
  let self1 := with_fetcher (set_constraints
                 (query_constraints (b "30") (b "35") (b "-75") (b "-70")
                    (b "'2020-01-01'") (b "'2020-02-01'"))) fresh in
  let url := search_url (fetcher self1) "glider" "csv" (b "30") (b "35") (b "-75")
               (b "-70") (b "'2020-01-01'") (b "'2020-02-01'") in
  let ids := [CStr "ru29-2020"; CStr "ru29-2020-delayed"; CStr "ng314-2020"] in
  let out := run false fresh empty_world in
  (∃ r cat kept,
      Some 1 = Some r ∧ datasets (snd (fst out)) = Some r
      ∧ heap (snd out) !! r = Some cat
      ∧ getitem "Dataset ID" cat = Ok (Series kept)
      ∧ Forall (λ v, Py.str_endswith (cell_str v) "delayed" = false) kept
      ∧ getitem "info_url" cat
        = Ok (Series (map (λ id, CStr (info_url (fetcher (snd (fst out))) id "html"))
                          kept)))
  ∧ (∃ r cat w',
      run false fresh empty_world
      = (Ok (Some r), set_datasets (Some r) (set_query_url url self1), w')
      ∧ heap w' !! r = Some cat
      ∧ log w' = log empty_world ++ [EvSearch url]
      ∧ getitem "Dataset ID" cat
        = Ok (Series (filter (λ v, Py.str_endswith (cell_str v) "delayed" = false) ids))
      ∧ getitem "info_url" cat
        = Ok (Series (map (λ id, CStr (info_url (fetcher self1) id "html"))
                (filter (λ v, Py.str_endswith (cell_str v) "delayed" = false) ids))))
  ∧ (∃ r cat w',
      run true fresh empty_world
      = (Ok (Some r), set_datasets (Some r) (set_query_url url self1), w')
      ∧ heap w' !! r = Some cat
      ∧ log w' = log empty_world ++ [EvSearch url]
      ∧ getitem "Dataset ID" cat = Ok (Series ids)
      ∧ columns cat = ["Title"; "Institution"; "Dataset ID"]).
Proof.
  intros run self1 url ids out.
  pose proof (@query_delayed_filter online (b "30") (b "35") (b "-75") (b "-70")
                (b "'2020-01-01'") (b "'2020-02-01'") fresh empty_world eq_refl)
    as [Hsafe Hlive].
  split.
  - apply (Hsafe (Some 1) (snd (fst out)) (snd out)). reflexivity.
  - apply (Hlive "griddap,Title,Institution,Dataset ID" search_table
             [CStr "ru29"; CStr "ru29 (delayed)"; CStr "ng314"]
             [CStr "Rutgers"; CStr "Rutgers"; CStr "Navy"] ids).
    + reflexivity.
    + reflexivity.
    + unfold wf. simpl. repeat constructor.
    + reflexivity.
    + reflexivity.
    + reflexivity.
    + repeat constructor.
Defined.

Lemma to_pandas_unconfigured_witness :
  @to_pandas online fresh empty_world
  = (Raise (ValueError "Must provide a None or `query` terms to download data."),
     fresh, empty_world).
Proof.
  apply (@to_pandas_unconfigured online fresh empty_world); reflexivity.
Defined.

Lemma to_pandas_empty_catalog_witness :
  @to_pandas online queried {| heap := [empty_catalog]; log := [] |}
  = (Raise (ValueError "No objects to concatenate"), queried,
     {| heap := [empty_catalog]; log := [] |}).
Proof.
  apply (@to_pandas_empty_catalog online queried {| heap := [empty_catalog]; log := [] |}
           0 empty_catalog); reflexivity.
Defined.

Lemma to_pandas_concat_witness :
  let w := {| heap := [catalog]; log := [] |} in
  let c := fetcher queried in
  let ids := [CStr "ru29-2020"; CStr "ng314-2020"] in
  let raw := [table_ru29; table_ng314] in
  ∃ r w',
    @to_pandas online queried w = (Ok r, after_loop ids queried, w')
    ∧ heap w' !! r = Some concatenated
    ∧ (∀ r0, r0 < length (heap w) → heap w' !! r0 = heap w !! r0)
    ∧ log w' = log w ++ map (λ id, EvTable (set_dataset_id (Some id) c)) ids
    ∧ nrows concatenated = sum_list (map nrows raw)
    ∧ index concatenated = concat (map index raw)
    ∧ (∀ k id t label i v,
         ids !! k = Some id → raw !! k = Some t →
         cell_at (@standardise online (@dataset_url_of online c id) t) label i = Some v →
         cell_at concatenated label (sum_list (map nrows (take k raw)) + i) = Some v).
Proof.
  apply (@to_pandas_concat online queried {| heap := [catalog]; log := [] |} 0 catalog
           [CStr "ru29-2020"; CStr "ng314-2020"] [table_ru29; table_ng314] concatenated).
  - reflexivity.
  - reflexivity.
  - reflexivity.
  - reflexivity.
  - repeat constructor.
  - unfold wf. repeat constructor.
  - vm_compute. reflexivity.
Defined.

Lemma get_ids_sentinel_witness :
  (∃ s' w', @get_ids online (DatasetList_init _server) empty_world
            = (Ok [CStr "ru29-2020"; CStr "ng314-2020"], s', w')
            ∧ dataset_ids s' = Some [CStr "ru29-2020"; CStr "ng314-2020"])
  ∧ @get_ids online (DatasetList_init "https://example.org/erddap") empty_world
    = (Raise (ValueError
         "The https://example.org/erddap does not supported this operation."),
       DatasetList_init "https://example.org/erddap", empty_world).
Proof.
  split.
  - apply (proj1 (@get_ids_sentinel online) (DatasetList_init _server) empty_world table_all
             [CStr "allDatasets"; CStr "ru29-2020"; CStr "ng314-2020"]).
    + reflexivity.
    + reflexivity.
    + reflexivity.
    + apply (bool_decide_unpack _). vm_compute. exact I.
    + left.
  - apply (proj2 (@get_ids_sentinel online) (DatasetList_init "https://example.org/erddap")
             empty_world).
    discriminate.
Defined.

End OnSample.

(** * Further properties *)

(** ** Downloads: the two paths of [to_pandas] *)

Section Downloads.
Import Pandas Run Frames Services Fetchers.
Context `{Sv : Services}.

(** The path of an active dataset id, when the download succeeds. *)
Lemma to_pandas_active_run (self : GliderDataFetcher) (w : World) (t : DataFrame) :
  truth_dataset_id (dataset_id (fetcher self)) = true →
  tabledap (fetcher self) (Some "time (UTC)") = Ok t →
  to_pandas self w
  = (Ok (length (heap w)), self,
     {| heap := heap w
                ++ [standardise (Py.split_head "?" (get_download_url (fetcher self))) t];
        log := log w ++ [EvTable (fetcher self)] |}).
Proof.
  intros Hid Ht.
  unfold to_pandas, erddap_to_pandas, bind, get_self, emit, lift, alloc.
  rewrite Hid. cbn [heap log]. rewrite Ht. cbn [heap log].
  erewrite standardise_df_run by (cbn [heap]; now apply list_lookup_middle).
  cbn [heap log]. do 2 f_equal.
  replace (length (heap w)) with (length (heap w) + 0) at 1 by lia.
  now rewrite insert_app_r.
Qed.

(** The path of an active dataset id, when the download fails. *)
Lemma to_pandas_active_fail (self : GliderDataFetcher) (w : World) (err : exn) :
  truth_dataset_id (dataset_id (fetcher self)) = true →
  tabledap (fetcher self) (Some "time (UTC)") = Raise err →
  to_pandas self w
  = (Raise err, self, {| heap := heap w; log := log w ++ [EvTable (fetcher self)] |}).
Proof.
  intros Hid Ht.
  unfold to_pandas, erddap_to_pandas, bind, get_self, emit, lift, alloc.
  rewrite Hid. cbn [heap log]. now rewrite Ht.
Qed.

(** One turn of the loop whose download fails. *)
Lemma fetch_one_fail (id : cell) (self : GliderDataFetcher) (w : World) (err : exn) :
  tabledap (set_dataset_id (Some id) (fetcher self)) (Some "time (UTC)") = Raise err →
  fetch_one id self w
  = (Raise err, with_fetcher (set_dataset_id (Some id)) self,
     {| heap := heap w;
        log := log w ++ [EvTable (set_dataset_id (Some id) (fetcher self))] |}).
Proof.
  intros Ht.
  unfold fetch_one, erddap_to_pandas, bind, modify_self, get_self, emit, lift, alloc.
  cbn [fetcher with_fetcher heap log]. now rewrite Ht.
Qed.

Lemma after_loop_app (ids1 ids2 : list cell) (self : GliderDataFetcher) :
  after_loop (ids1 ++ ids2) self = after_loop ids2 (after_loop ids1 self).
Proof. unfold after_loop. apply fold_left_app. Qed.

(** The loop changes nothing of the client but its active dataset id. *)
Lemma fetcher_after_loop (ids : list cell) (self : GliderDataFetcher) (v : option cell) :
  set_dataset_id v (fetcher (after_loop ids self)) = set_dataset_id v (fetcher self).
Proof.
  revert self. induction ids as [|id ids IH]; intros self; [reflexivity|].
  cbn [after_loop fold_left]. fold (after_loop ids (with_fetcher (set_dataset_id (Some id)) self)).
  now rewrite IH.
Qed.

Lemma datasets_after_loop (ids : list cell) (self : GliderDataFetcher) :
  datasets (after_loop ids self) = datasets self.
Proof.
  revert self. induction ids as [|id ids IH]; intros self; [reflexivity|].
  cbn [after_loop fold_left]. fold (after_loop ids (with_fetcher (set_dataset_id (Some id)) self)).
  now rewrite IH.
Qed.

(** The loop up to the first download that fails. *)
Lemma fetch_loop_fail (c : ERDDAP) (ids1 : list cell) (raw1 : list DataFrame)
    (id : cell) (ids2 : list cell) (err : exn) :
  Forall2 (λ id t, tabledap (set_dataset_id (Some id) c) (Some "time (UTC)") = Ok t)
          ids1 raw1 →
  tabledap (set_dataset_id (Some id) c) (Some "time (UTC)") = Raise err →
  ∀ (self : GliderDataFetcher) (w : World),
    (∀ v, set_dataset_id v (fetcher self) = set_dataset_id v c) →
    map_m fetch_one (ids1 ++ id :: ids2) self w
    = (Raise err,
       after_loop (ids1 ++ [id]) self,
       {| heap := heap w ++ normalised c ids1 raw1;
          log := log w ++ map (λ id, EvTable (set_dataset_id (Some id) c)) (ids1 ++ [id]) |}).
Proof.
  intros Hok Herr. induction Hok as [|id1 t ids1 raw1 Ht _ IH]; intros self w Hself.
  - cbn [app map_m]. unfold bind at 1.
    rewrite (fetch_one_fail id self w err) by (now rewrite Hself).
    rewrite Hself. cbn [normalised zip_with map after_loop fold_left app].
    now rewrite app_nil_r.
  - cbn [app map_m]. unfold bind at 1.
    rewrite (fetch_one_run id1 self w t) by (now rewrite Hself).
    unfold bind at 1. rewrite IH by (intros v; apply Hself).
    cbn [heap log]. unfold dataset_url_of. rewrite Hself.
    cbn [normalised zip_with map after_loop fold_left app].
    now rewrite <- !app_assoc.
Qed.

(** The catalog path, when every download succeeds: what [pd.concat] gives
    is what [to_pandas] gives. *)
Lemma to_pandas_catalog_run (self : GliderDataFetcher) (w : World) (cat : ref)
    (catalog : DataFrame) (ids : list cell) (raw : list DataFrame) :
  let c := fetcher self in
  let w1 := {| heap := heap w ++ normalised c ids raw;
               log := log w ++ map (λ id, EvTable (set_dataset_id (Some id) c)) ids |} in
  truth_dataset_id (dataset_id c) = false →
  datasets self = Some cat →
  heap w !! cat = Some catalog →
  getitem "Dataset ID" catalog = Ok (Series ids) →
  Forall2 (λ id t, tabledap (set_dataset_id (Some id) c) (Some "time (UTC)") = Ok t)
          ids raw →
  to_pandas self w
  = match pd_concat (normalised c ids raw) with
    | Ok out => (Ok (length (heap w1)), after_loop ids self,
                 {| heap := heap w1 ++ [out]; log := log w1 |})
    | Raise err => (Raise err, after_loop ids self, w1)
    end.
Proof.
  intros c w1 Hid Hcat Hheap Hids Hfetch.
  assert (Hn : length (normalised c ids raw) = length ids).
  { unfold normalised. rewrite length_zip_with.
    pose proof (Forall2_length _ _ _ Hfetch). lia. }
  unfold to_pandas, bind at 1, get_self. fold c. rewrite Hid, Hcat.
  unfold bind at 1, deref at 1. rewrite Hheap.
  unfold bind at 1, lift at 1. rewrite Hids. cbn [iter_item].
  unfold bind at 1. rewrite (fetch_loop c ids raw Hfetch) by reflexivity.
  unfold bind at 1. rewrite <- Hn at 1.
  rewrite (map_m_deref (normalised c ids raw) (heap w)) by reflexivity.
  unfold bind, lift, alloc. fold w1.
  destruct (pd_concat (normalised c ids raw)); reflexivity.
Qed.

Lemma wf_normalised (c : ERDDAP) (ids : list cell) (raw : list DataFrame) :
  Forall wf raw → Forall wf (normalised c ids raw).
Proof.
  intros Hwf. unfold normalised. revert ids.
  induction Hwf as [|t raw Ht _ IH]; intros [|id ids]; simpl; constructor.
  - now apply wf_standardise.
  - apply IH.
Qed.

(** Either every download of the loop succeeds, or the loop raises. *)
Lemma fetch_loop_total (c : ERDDAP) (ids : list cell) :
  ∀ (self : GliderDataFetcher) (w : World),
    (∀ v, set_dataset_id v (fetcher self) = set_dataset_id v c) →
    (∃ raw, Forall2 (λ id t, tabledap (set_dataset_id (Some id) c) (Some "time (UTC)")
                             = Ok t) ids raw)
    ∨ (∃ err s' w', map_m fetch_one ids self w = (Raise err, s', w')).
Proof.
  induction ids as [|id ids IH]; intros self w Hself.
  - left. exists []. constructor.
  - destruct (tabledap (set_dataset_id (Some id) c) (Some "time (UTC)")) as [t|err] eqn:Et.
    + destruct (IH (with_fetcher (set_dataset_id (Some id)) self)
                  {| heap := heap w ++ [standardise (dataset_url_of (fetcher self) id) t];
                     log := log w ++ [EvTable (set_dataset_id (Some id) (fetcher self))] |})
        as [[raw Hraw]|(err & s' & w' & Hfail)].
      * intros v. apply Hself.
      * left. exists (t :: raw). now constructor.
      * right. exists err, s', w'. cbn [map_m]. unfold bind at 1.
        rewrite (fetch_one_run id self w t) by (now rewrite Hself).
        unfold bind at 1. now rewrite Hfail.
    + right. do 3 eexists. cbn [map_m]. unfold bind at 1.
      rewrite (fetch_one_fail id self w err) by (now rewrite Hself). reflexivity.
Qed.

(** The standardised table holds the URL in every row of [dataset_url]. *)
Lemma cell_at_dataset_url (url : string) (d : DataFrame) (i : nat) :
  i < nrows d → cell_at (standardise url d) "dataset_url" i = Some (CStr url).
Proof.
  intros Hi. unfold cell_at.
  destruct (columns_named_setitem "dataset_url" (replicate (nrows d) (CStr url))
              (rename_index "time"
                 (rename_columns server_parameter_rename (columns_lower d))))
    as [Hne Hall].
  change (setitem "dataset_url" _ _) with (standardise url d) in Hne, Hall.
  destruct (columns_named "dataset_url" (standardise url d)) as [|c0 r0]; [now destruct Hne|].
  inversion Hall as [|? ? Hc0 _]; subst. rewrite Hc0. now apply lookup_replicate_2.
Qed.

(** The index of a concatenation of standardised tables is named [time]. *)
Lemma consensus_name_normalised (c : ERDDAP) (ids : list cell) (raw : list DataFrame) :
  normalised c ids raw ≠ [] → consensus_name (normalised c ids raw) = Some "time".
Proof.
  assert (Hall : Forall (λ d, index_name d = Some "time") (normalised c ids raw)).
  { unfold normalised. revert raw. induction ids as [|id ids IH]; intros [|t raw];
      simpl; constructor; [reflexivity|apply IH]. }
  destruct (normalised c ids raw) as [|d0 r]; [now intros H|]. intros _.
  inversion Hall as [|? ? Hd0 Hr]; subst. unfold consensus_name.
  replace (forallb (λ d, bool_decide (index_name d = index_name d0)) r) with true;
    [assumption|].
  symmetry. apply forallb_forall. intros d Hd. apply bool_decide_eq_true.
  rewrite Forall_forall in Hr. rewrite Hd0. now apply Hr, list_elem_of_In.
Qed.

Lemma pd_concat_index_name (ds : list DataFrame) (out : DataFrame) :
  pd_concat ds = Ok out → ds ≠ [] ∧ index_name out = consensus_name ds.
Proof.
  unfold pd_concat. destruct ds as [|d0 r]; [discriminate|].
  destruct (forallb _ _); [|destruct (forallb _ _)]; intros H; inversion H; now split.
Qed.

Lemma sum_length_nrows (f : DataFrame → list cell) (ds : list DataFrame) :
  Forall (λ d, length (f d) = nrows d) ds →
  sum_list (map length (map f ds)) = sum_list (map nrows ds).
Proof.
  induction 1 as [|d ds Hd _ IH]; simpl; [reflexivity|]. now rewrite Hd, IH.
Qed.

(** Concatenation keeps tables well formed. *)
Lemma pd_concat_wf (ds : list DataFrame) (out : DataFrame) :
  Forall wf ds → pd_concat ds = Ok out → wf out.
Proof.
  intros Hwf Hc. pose proof (pd_concat_nrows _ _ Hc) as Hn.
  unfold pd_concat in Hc. destruct ds as [|d0 r] eqn:Eds; [discriminate|].
  rewrite <- Eds in *.
  destruct (forallb (λ d, bool_decide (columns d = columns d0)) ds) eqn:Esame.
  - injection Hc as <-. unfold wf. rewrite Hn. cbn [data].
    rewrite forallb_forall in Esame.
    apply Forall_lookup. intros j c Hj. rewrite list_lookup_imap in Hj.
    destruct (data d0 !! j) as [c0|] eqn:E0; [|discriminate]. injection Hj as <-.
    cbn [snd]. unfold stack_at. rewrite length_concat_sum.
    apply (sum_length_nrows (λ d, default [] (snd <$> data d !! j))).
    apply Forall_forall. intros d Hd.
    assert (Hlen : length (data d) = length (data d0)).
    { apply list_elem_of_In, Esame, bool_decide_eq_true in Hd. unfold columns in Hd.
      apply (f_equal length) in Hd. now rewrite !length_map in Hd. }
    destruct (data d !! j) as [cd|] eqn:Ej.
    + simpl. rewrite Forall_forall in Hwf. specialize (Hwf d Hd).
      unfold wf in Hwf. rewrite Forall_lookup in Hwf. now apply (Hwf j cd).
    + apply lookup_ge_None in Ej. apply lookup_lt_Some in E0. lia.
  - destruct (forallb unique_labels ds); [|discriminate]. injection Hc as <-.
    unfold wf. rewrite Hn. cbn [data]. apply Forall_forall. intros c Hc.
    apply list_elem_of_fmap in Hc as (l & -> & _). cbn [snd].
    rewrite length_concat_sum.
    apply (sum_length_nrows (column_or_nan l)).
    eapply Forall_impl; [exact Hwf|]. intros d Hd. now apply length_column_or_nan.
Qed.

Lemma pd_concat_singleton (d : DataFrame) : pd_concat [d] = Ok d.
Proof.
  unfold pd_concat. cbn [forallb]. rewrite bool_decide_eq_true_2 by reflexivity.
  cbn [andb]. destruct d as [cs name ix]. unfold consensus_name. cbn.
  rewrite app_nil_r. do 2 f_equal.
  apply list_eq. intros j. rewrite list_lookup_imap.
  destruct (cs !! j) as [[l v]|] eqn:E; [|reflexivity].
  cbn. unfold stack_at. cbn. now rewrite app_nil_r.
Qed.

(** X1: with an active dataset id, [to_pandas] does not look at the
    catalog.  It makes exactly one download, with the client as it is; when
    the download succeeds its standardised table is returned as a new
    object, when it fails the error is raised as it came.  The fetcher and
    the tables already stored are untouched either way. *)
Theorem to_pandas_active_id (self : GliderDataFetcher) (w : World) :
  truth_dataset_id (dataset_id (fetcher self)) = true →
  ∃ w', log w' = log w ++ [EvTable (fetcher self)]
    ∧ (∀ r, r < length (heap w) → heap w' !! r = heap w !! r)
    ∧ match tabledap (fetcher self) (Some "time (UTC)") with
      | Ok t =>
          to_pandas self w = (Ok (length (heap w)), self, w')
          ∧ heap w' !! length (heap w)
            = Some (standardise (Py.split_head "?" (get_download_url (fetcher self))) t)
      | Raise err =>
          to_pandas self w = (Raise err, self, w') ∧ heap w' = heap w
      end.
Proof.
  intros Hid. destruct (tabledap (fetcher self) (Some "time (UTC)")) as [t|err] eqn:Et.
  - eexists. split; [|split; [|split; [apply (to_pandas_active_run _ _ _ Hid Et)|]]].
    + reflexivity.
    + intros r Hr. cbn [heap]. now apply lookup_app_l.
    + cbn [heap]. now apply list_lookup_middle.
  - eexists. split; [|split; [|split; [apply (to_pandas_active_fail _ _ _ Hid Et)|]]];
      reflexivity.
Qed.

(** X2: when a download of the catalog loop fails, [to_pandas] raises that
    error as it came.  The fetcher is left with the failing id as its active
    dataset id, the tables of the ids before it stay in the store, and no
    download is made for the ids after it. *)
Theorem to_pandas_failed_download (self : GliderDataFetcher) (w : World) (cat : ref)
    (catalog : DataFrame) (ids1 : list cell) (id : cell) (ids2 : list cell)
    (raw1 : list DataFrame) (err : exn) :
  let c := fetcher self in
  truth_dataset_id (dataset_id c) = false →
  datasets self = Some cat →
  heap w !! cat = Some catalog →
  getitem "Dataset ID" catalog = Ok (Series (ids1 ++ id :: ids2)) →
  Forall2 (λ id t, tabledap (set_dataset_id (Some id) c) (Some "time (UTC)") = Ok t)
          ids1 raw1 →
  tabledap (set_dataset_id (Some id) c) (Some "time (UTC)") = Raise err →
  ∃ s' w',
    to_pandas self w = (Raise err, s', w')
    ∧ dataset_id (fetcher s') = Some id
    ∧ datasets s' = Some cat
    ∧ heap w' = heap w ++ normalised c ids1 raw1
    ∧ log w' = log w ++ map (λ id, EvTable (set_dataset_id (Some id) c)) (ids1 ++ [id]).
Proof.
  intros c Hid Hcat Hheap Hids Hok Herr.
  exists (after_loop (ids1 ++ [id]) self). eexists. split.
  - unfold to_pandas, bind at 1, get_self. fold c. rewrite Hid, Hcat.
    unfold bind at 1, deref at 1. rewrite Hheap.
    unfold bind at 1, lift at 1. rewrite Hids. cbn [iter_item].
    unfold bind at 1.
    rewrite (fetch_loop_fail c ids1 raw1 id ids2 err Hok Herr) by reflexivity.
    reflexivity.
  - cbn [heap log]. split; [|split; [|split; reflexivity]].
    + rewrite after_loop_app. reflexivity.
    + now rewrite datasets_after_loop.
Qed.

(** X3: after [to_pandas] has gone through a catalog, the last catalog id
    is the fetcher's active dataset id.  A second [to_pandas] therefore
    takes the single-dataset path: it makes one download, for that last id,
    and returns its standardised table alone. *)
Theorem to_pandas_second_call (self : GliderDataFetcher) (w : World) (cat : ref)
    (catalog : DataFrame) (ids : list cell) (idl : cell) (raw : list DataFrame)
    (tl out : DataFrame) :
  let c := fetcher self in
  truth_dataset_id (dataset_id c) = false →
  datasets self = Some cat →
  heap w !! cat = Some catalog →
  getitem "Dataset ID" catalog = Ok (Series (ids ++ [idl])) →
  Forall2 (λ id t, tabledap (set_dataset_id (Some id) c) (Some "time (UTC)") = Ok t)
          ids raw →
  tabledap (set_dataset_id (Some idl) c) (Some "time (UTC)") = Ok tl →
  pd_concat (normalised c (ids ++ [idl]) (raw ++ [tl])) = Ok out →
  truth_dataset_id (Some idl) = true →
  ∃ r1 s1 w1,
    to_pandas self w = (Ok r1, s1, w1)
    ∧ heap w1 !! r1 = Some out
    ∧ fetcher s1 = set_dataset_id (Some idl) c
    ∧ ∃ r2 w2,
        to_pandas s1 w1 = (Ok r2, s1, w2)
        ∧ heap w2 !! r2 = Some (standardise (dataset_url_of c idl) tl)
        ∧ log w2 = log w1 ++ [EvTable (set_dataset_id (Some idl) c)].
Proof.
  intros c Hid Hcat Hheap Hids Hok Hlast Hconcat Htruth.
  assert (Hall : Forall2 (λ id t, tabledap (set_dataset_id (Some id) c)
                                    (Some "time (UTC)") = Ok t)
                   (ids ++ [idl]) (raw ++ [tl])).
  { apply Forall2_app; [assumption|]. now constructor. }
  pose proof (to_pandas_catalog_run self w cat catalog _ _ Hid Hcat Hheap Hids Hall)
    as Hrun.
  cbv zeta in Hrun. fold c in Hrun. rewrite Hconcat in Hrun.
  assert (Hf : fetcher (after_loop (ids ++ [idl]) self) = set_dataset_id (Some idl) c).
  { rewrite after_loop_app. cbn [after_loop fold_left with_fetcher fetcher].
    apply fetcher_after_loop. }
  do 3 eexists. split; [exact Hrun|]. split; [|split; [exact Hf|]].
  - cbn [heap]. now apply list_lookup_middle.
  - do 2 eexists. split; [|split].
    + apply to_pandas_active_run with (t := tl); rewrite Hf; assumption.
    + cbn [heap]. rewrite Hf. now apply list_lookup_middle.
    + cbn [log]. now rewrite Hf.
Qed.

(** X4: a catalog with one entry gives the table that the single-dataset
    path gives for that id: [to_pandas] through the catalog and [to_pandas]
    with the id set as active dataset id return equal tables, and both leave
    the id as the active one. *)
Theorem to_pandas_single_entry (self : GliderDataFetcher) (w : World) (cat : ref)
    (catalog : DataFrame) (id : cell) (t : DataFrame) :
  let c := fetcher self in
  let self' := with_fetcher (set_dataset_id (Some id)) self in
  let table := standardise (dataset_url_of c id) t in
  truth_dataset_id (dataset_id c) = false →
  datasets self = Some cat →
  heap w !! cat = Some catalog →
  getitem "Dataset ID" catalog = Ok (Series [id]) →
  truth_dataset_id (Some id) = true →
  tabledap (set_dataset_id (Some id) c) (Some "time (UTC)") = Ok t →
  (∃ r w1, to_pandas self w = (Ok r, self', w1) ∧ heap w1 !! r = Some table)
  ∧ (∃ r w2, to_pandas self' w = (Ok r, self', w2) ∧ heap w2 !! r = Some table).
Proof.
  intros c self' table Hid Hcat Hheap Hids Htruth Ht.
  split.
  - assert (Hall : Forall2 (λ id t, tabledap (set_dataset_id (Some id) c)
                                      (Some "time (UTC)") = Ok t) [id] [t])
      by (now constructor).
    pose proof (to_pandas_catalog_run self w cat catalog _ _ Hid Hcat Hheap Hids Hall)
      as Hrun.
    cbv zeta in Hrun. fold c in Hrun.
    cbn [normalised zip_with] in Hrun. rewrite pd_concat_singleton in Hrun.
    do 2 eexists. split; [exact Hrun|]. cbn [heap]. now apply list_lookup_middle.
  - do 2 eexists. split.
    + apply to_pandas_active_run with (t := t); assumption.
    + cbn [heap]. now apply list_lookup_middle.
Qed.

(** X5: in the table [to_pandas] builds from a catalog, the index is named
    [time] and every row tells where it came from: the rows of the [k]-th
    dataset hold that dataset's download URL (up to the query string) in
    the column [dataset_url]. *)
Theorem to_pandas_provenance (self : GliderDataFetcher) (w : World) (cat : ref)
    (catalog : DataFrame) (ids : list cell) (raw : list DataFrame) (out : DataFrame) :
  let c := fetcher self in
  truth_dataset_id (dataset_id c) = false →
  datasets self = Some cat →
  heap w !! cat = Some catalog →
  getitem "Dataset ID" catalog = Ok (Series ids) →
  Forall2 (λ id t, tabledap (set_dataset_id (Some id) c) (Some "time (UTC)") = Ok t)
          ids raw →
  Forall wf raw →
  pd_concat (normalised c ids raw) = Ok out →
  ∃ r s' w',
    to_pandas self w = (Ok r, s', w')
    ∧ heap w' !! r = Some out
    ∧ index_name out = Some "time"
    ∧ (∀ k id t i,
         ids !! k = Some id → raw !! k = Some t → i < nrows t →
         cell_at out "dataset_url" (sum_list (map nrows (take k raw)) + i)
         = Some (CStr (dataset_url_of c id))).
Proof.
  intros c Hid Hcat Hheap Hids Hok Hwf Hconcat.
  pose proof (to_pandas_catalog_run self w cat catalog _ _ Hid Hcat Hheap Hids Hok)
    as Hrun.
  cbv zeta in Hrun. fold c in Hrun. rewrite Hconcat in Hrun.
  do 3 eexists. split; [exact Hrun|]. split; [cbn [heap]; now apply list_lookup_middle|].
  destruct (pd_concat_index_name _ _ Hconcat) as [Hne Hname].
  split; [rewrite Hname; now apply consensus_name_normalised|].
  intros k id t i Hk Ht Hi.
  assert (Hnrows : map nrows (normalised c ids raw) = map nrows raw).
  { pose proof (Forall2_length _ _ _ Hok) as Hlen. clear -Hlen. unfold normalised.
    revert raw Hlen. induction ids as [|id ids IH]; intros [|t raw] Hlen; simpl in *;
      try reflexivity; try discriminate.
    f_equal. apply IH. now injection Hlen. }
  replace (map nrows (take k raw)) with (map nrows (take k (normalised c ids raw)))
    by (now rewrite <- !firstn_map, Hnrows).
  apply (pd_concat_cell _ _ _ (standardise (dataset_url_of c id) t) _ _ _ Hconcat
           (wf_normalised c ids raw Hwf)).
  - unfold normalised. rewrite lookup_zip_with, Hk. simpl. now rewrite Ht.
  - now apply cell_at_dataset_url.
Qed.

(** X6: whenever [to_pandas] returns, on either path, what it returns is a
    new table object, and that table is well formed (every column has one
    cell per row) as long as the downloaded tables are. *)
Theorem to_pandas_returns_wf (self : GliderDataFetcher) (w : World) (r : ref)
    (s' : GliderDataFetcher) (w' : World) :
  (∀ c i d, tabledap c i = Ok d → wf d) →
  to_pandas self w = (Ok r, s', w') →
  (length (heap w) ≤ r)%nat ∧ ∃ out, heap w' !! r = Some out ∧ wf out.
Proof.
  intros Hsrv Hrun.
  destruct (truth_dataset_id (dataset_id (fetcher self))) eqn:Hid.
  - destruct (tabledap (fetcher self) (Some "time (UTC)")) as [t|err] eqn:Et.
    + rewrite (to_pandas_active_run _ _ _ Hid Et) in Hrun. injection Hrun as <- <- <-.
      split; [lia|]. eexists. split; [cbn [heap]; now apply list_lookup_middle|].
      apply wf_standardise. eapply Hsrv, Et.
    + rewrite (to_pandas_active_fail _ _ _ Hid Et) in Hrun. discriminate.
  - destruct (datasets self) as [cat|] eqn:Hcat.
    2:{ rewrite to_pandas_no_source in Hrun by assumption. discriminate. }
    unfold to_pandas, bind at 1, get_self in Hrun. rewrite Hid, Hcat in Hrun.
    unfold bind at 1, deref at 1 in Hrun.
    destruct (heap w !! cat) as [catalog|]; [|discriminate].
    unfold bind at 1, lift at 1 in Hrun.
    destruct (getitem "Dataset ID" catalog) as [it|]; [|discriminate].
    unfold bind at 1 in Hrun.
    destruct (fetch_loop_total (fetcher self) (iter_item it) self w)
      as [[raw Hraw]|(err & s2 & w2 & Hfail)]; [reflexivity| |].
    2:{ rewrite Hfail in Hrun. discriminate. }
    rewrite (fetch_loop _ _ _ Hraw) in Hrun by reflexivity.
    assert (Hn : length (normalised (fetcher self) (iter_item it) raw)
                 = length (iter_item it)).
    { unfold normalised. rewrite length_zip_with.
      pose proof (Forall2_length _ _ _ Hraw). lia. }
    unfold bind at 1 in Hrun. rewrite <- Hn in Hrun at 1.
    rewrite (map_m_deref _ (heap w)) in Hrun by reflexivity.
    unfold bind, lift, alloc in Hrun.
    destruct (pd_concat (normalised (fetcher self) (iter_item it) raw)) as [out|] eqn:Ec;
      [|discriminate].
    injection Hrun as <- <- <-. cbn [heap]. split; [rewrite length_app; lia|].
    exists out. split; [now apply list_lookup_middle|].
    apply (pd_concat_wf _ _ (wf_normalised _ _ _ ltac:(
      apply Forall_forall; intros t Ht;
      apply list_elem_of_lookup in Ht as [k Hk];
      destruct (Forall2_lookup_r _ _ _ _ _ Hraw Hk) as (id & _ & Hid');
      exact (Hsrv _ _ _ Hid'))) Ec).
Qed.

End Downloads.

(** ** Catalog searches: the paths of [query] *)

Section Searches.
Import Pandas Run Frames Services Fetchers.
Context `{Sv : Services}.



(** Whatever [drop_delayed] does, it leaves the fetcher, the request log and
    the tables already stored alone. *)
Lemma drop_delayed_frame (df : ref) (self : GliderDataFetcher) (w : World)
    (res : Res ref) (s' : GliderDataFetcher) (w' : World) :
  drop_delayed df self w = (res, s', w') →
  s' = self ∧ log w' = log w ∧ ∃ new, heap w' = heap w ++ new.
Proof.
  intros Hrun.
  unfold drop_delayed, bind, deref, lift, alloc, get_self, update, ret in Hrun.
  assert (Hnil : ∃ new, heap w = heap w ++ new) by (exists []; now rewrite app_nil_r).
  destruct (heap w !! df) as [d|]; [|now inversion Hrun; subst].
  cbv beta iota in Hrun.
  destruct (getitem "Dataset ID" d) as [ids|]; [|now inversion Hrun; subst].
  cbv beta iota in Hrun.
  destruct (not_endswith "delayed" ids) as [mask|]; [|now inversion Hrun; subst].
  cbv beta iota in Hrun. cbn [heap log] in Hrun.
  rewrite list_lookup_middle in Hrun by reflexivity. cbv beta iota in Hrun.
  destruct (getitem "Dataset ID" (loc_mask mask d)) as [ids'|];
    [|inversion Hrun; subst; cbn; eauto].
  cbv beta iota in Hrun.
  destruct (setitem_list _ _ _) as [d'|]; [|inversion Hrun; subst; cbn; eauto].
  cbv beta iota in Hrun. cbn [heap log] in Hrun.
  rewrite list_lookup_middle in Hrun by reflexivity.
  inversion Hrun; subst. cbn [heap log]. split; [reflexivity|]. split; [reflexivity|].
  exists [d']. replace (length (heap w)) with (length (heap w) + 0) by lia.
  now rewrite insert_app_r.
Qed.

(** The run of [query] on a well-formed search response, without
    [delayed]. *)
Lemma query_run (min_lat max_lat min_lon max_lon min_time max_time : bound)
    (self : GliderDataFetcher) (w : World) (body : string) (d0 : DataFrame)
    (t i ids : list cell) :
  let self1 := with_fetcher (set_constraints
                 (query_constraints min_lat max_lat min_lon max_lon min_time max_time))
                 self in
  let url := get_search_url (fetcher self1) "glider" "csv"
               min_lat max_lat min_lon max_lon min_time max_time in
  let mask := map (λ v, negb (Py.str_endswith (cell_str v) "delayed")) ids in
  let kept := select_mask mask ids in
  let selected := {| data := [("Title", t); ("Institution", i); ("Dataset ID", ids)];
                     index_name := index_name d0; index := index d0 |} in
  let cat := {| data := [("Title", select_mask mask t);
                         ("Institution", select_mask mask i);
                         ("Dataset ID", kept);
                         ("info_url",
                          map (λ id, CStr (get_info_url (fetcher self1) id "html")) kept)];
                index_name := index_name d0;
                index := select_mask mask (index d0) |} in
  datasets self = None →
  urlopen url = Ok body →
  read_csv body = Ok d0 →
  wf d0 →
  getitem "Title" d0 = Ok (Series t) →
  getitem "Institution" d0 = Ok (Series i) →
  getitem "Dataset ID" d0 = Ok (Series ids) →
  Forall (λ v, is_nan v = false) ids →
  query min_lat max_lat min_lon max_lon min_time max_time false self w
  = (Ok (Some (S (length (heap w)))),
     set_datasets (Some (S (length (heap w)))) (set_query_url url self1),
     {| heap := heap w ++ [selected; cat]; log := log w ++ [EvSearch url] |}).
Proof.
  intros self1 url mask kept selected cat Hnone Hurl Hcsv Hwf Ht Hi Hids Hnan.
  subst url. simpl in Hurl.
  pose proof (wf_column _ _ _ Hwf Hids) as Hlen.
  pose proof (getitem_three _ _ _ _ Ht Hi Hids) as Hsel.
  unfold query, bind, modify_self, get_self, lift, try_except_http, emit, alloc, ret.
  simpl. rewrite Hnone. simpl. rewrite Hurl, Hcsv. rewrite Hsel.
  cbn [negb heap log].
  erewrite drop_delayed_run; [| |exact Hnan|exact Hlen].
  2:{ cbn [heap]. now rewrite list_lookup_middle. }
  cbn [heap log]. rewrite length_app, Nat.add_comm. cbn [length Nat.add].
  now rewrite <- app_assoc.
Qed.

(** X7: whatever the outcome of [query], return or raise, the fetcher's
    client afterwards differs from before only in its constraints, which
    are the six bounds of this call; no stored table is changed; at most one
    request, a catalog search, is made.  When [query] returns, there was no
    catalog before and what it returns is the catalog it has stored; when
    it raises, the catalog attribute is as before, so a failed search stores
    nothing. *)
Theorem query_frame (min_lat max_lat min_lon max_lon min_time max_time : bound)
    (delayed : bool) (self : GliderDataFetcher) (w : World)
    (res : Res (option ref)) (s' : GliderDataFetcher) (w' : World) :
  let qc := query_constraints min_lat max_lat min_lon max_lon min_time max_time in
  let url := get_search_url (set_constraints qc (fetcher self)) "glider" "csv"
               min_lat max_lat min_lon max_lon min_time max_time in
  query min_lat max_lat min_lon max_lon min_time max_time delayed self w = (res, s', w') →
  fetcher s' = set_constraints qc (fetcher self)
  ∧ server s' = server self
  ∧ (∃ new, heap w' = heap w ++ new)
  ∧ (log w' = log w ∨ log w' = log w ++ [EvSearch url])
  ∧ match res with
    | Ok o => o = datasets s' ∧ is_Some o ∧ datasets self = None
    | Raise _ => datasets s' = datasets self
    end.
Proof.
  intros qc url Hrun. subst url qc.
  assert (Hnil : ∃ new, heap w = heap w ++ new) by (exists []; now rewrite app_nil_r).
  unfold query, bind, modify_self, get_self, lift, try_except_http, emit, alloc, ret,
    raise in Hrun.
  simpl in Hrun.
  destruct (datasets self) as [r0|] eqn:Hd; simpl in Hrun.
  { inversion Hrun; subst. cbn. rewrite Hd. repeat split; auto. }
  destruct (urlopen _) as [body|err].
  2:{ destruct err; inversion Hrun; subst; cbn; rewrite ?Hd; repeat split; auto. }
  destruct (read_csv body) as [d0|];
    [|inversion Hrun; subst; cbn; rewrite ?Hd; repeat split; auto].
  destruct (getitem_list _ d0) as [d|];
    [|inversion Hrun; subst; cbn; rewrite ?Hd; repeat split; auto].
  destruct delayed; simpl in Hrun.
  { inversion Hrun; subst. cbn. repeat split; eauto. }
  match type of Hrun with
  | context [drop_delayed ?df ?s ?w0] =>
      destruct (drop_delayed df s w0) as [[res2 s2] w2] eqn:Edrop
  end.
  apply drop_delayed_frame in Edrop as (-> & Hlog & new & Hheap).
  cbn [heap log] in Hlog, Hheap.
  destruct res2 as [r|err]; inversion Hrun; subst; cbn; rewrite ?Hd, ?Hlog, ?Hheap;
    rewrite <- ?app_assoc; repeat split; eauto.
Qed.

(** X8: [query] translates [httpx.HTTPError] only.  Any other error of the
    request, and any error of reading the response as CSV, is raised as it
    came; one search request has been made and no catalog is stored. *)
Theorem query_other_errors (min_lat max_lat min_lon max_lon min_time max_time : bound)
    (delayed : bool) (self : GliderDataFetcher) (w : World) (err : exn) :
  let self1 := with_fetcher (set_constraints
                 (query_constraints min_lat max_lat min_lon max_lon min_time max_time))
                 self in
  let url := get_search_url (fetcher self1) "glider" "csv"
               min_lat max_lat min_lon max_lon min_time max_time in
  datasets self = None →
  (urlopen url = Raise err ∧ ∀ msg, err ≠ HTTPError msg)
  ∨ (∃ body, urlopen url = Ok body ∧ read_csv body = Raise err) →
  query min_lat max_lat min_lon max_lon min_time max_time delayed self w
  = (Raise err, set_query_url url self1,
     {| heap := heap w; log := log w ++ [EvSearch url] |}).
Proof.
  intros self1 url Hnone Herr. subst url self1. simpl in Herr.
  unfold query, bind, modify_self, get_self, lift, try_except_http, emit, alloc, ret,
    raise.
  simpl. rewrite Hnone. simpl.
  destruct Herr as [[Hurl Hne]|(body & Hurl & Hcsv)]; rewrite Hurl.
  - destruct err; try reflexivity. now destruct (Hne msg).
  - now rewrite Hcsv.
Qed.


End Searches.

(** ** Sessions: [query] followed by [to_pandas] *)

Section Sessions.
Import Pandas Run Frames Services Fetchers.
Context `{Sv : Services}.

Lemma select_mask_all_delayed (ids : list cell) :
  Forall (λ v, Py.str_endswith (cell_str v) "delayed" = true) ids →
  select_mask (map (λ v, negb (Py.str_endswith (cell_str v) "delayed")) ids) ids = [].
Proof.
  induction 1 as [|v ids Hv _ IH]; [reflexivity|]. simpl. now rewrite Hv.
Qed.

(** X10: [query] and then [to_pandas] on a fetcher without active dataset
    id.  The downloads go to the ids of the search response that do not end
    in [delayed], in the order of the response, and each is made with the
    six bounds of [query] as the client's constraints; the table returned is
    the concatenation of their standardised tables, and the catalog stays as
    [query] stored it. *)
Theorem query_then_to_pandas
    (min_lat max_lat min_lon max_lon min_time max_time : bound)
    (self : GliderDataFetcher) (w : World) (body : string) (d0 : DataFrame)
    (t i ids : list cell) (raw : list DataFrame) (out : DataFrame) :
  let c := set_constraints
             (query_constraints min_lat max_lat min_lon max_lon min_time max_time)
             (fetcher self) in
  let url := get_search_url c "glider" "csv"
               min_lat max_lat min_lon max_lon min_time max_time in
  let kept := filter (λ v, Py.str_endswith (cell_str v) "delayed" = false) ids in
  datasets self = None →
  truth_dataset_id (dataset_id (fetcher self)) = false →
  urlopen url = Ok body →
  read_csv body = Ok d0 →
  wf d0 →
  getitem "Title" d0 = Ok (Series t) →
  getitem "Institution" d0 = Ok (Series i) →
  getitem "Dataset ID" d0 = Ok (Series ids) →
  Forall (λ v, is_nan v = false) ids →
  Forall2 (λ id t, tabledap (set_dataset_id (Some id) c) (Some "time (UTC)") = Ok t)
          kept raw →
  pd_concat (normalised c kept raw) = Ok out →
  ∃ r s1 w1,
    query min_lat max_lat min_lon max_lon min_time max_time false self w
    = (Ok (Some r), s1, w1)
    ∧ ∃ r2 s2 w2,
        to_pandas s1 w1 = (Ok r2, s2, w2)
        ∧ heap w2 !! r2 = Some out
        ∧ heap w2 !! r = heap w1 !! r
        ∧ datasets s2 = Some r
        ∧ log w2 = log w ++ EvSearch url
                     :: map (λ id, EvTable (set_dataset_id (Some id) c)) kept.
Proof.
  intros c url kept Hnone Hid Hurl Hcsv Hwf Ht Hi Hids Hnan Hok Hconcat.
  pose proof (query_run min_lat max_lat min_lon max_lon min_time max_time self w
                body d0 t i ids Hnone Hurl Hcsv Hwf Ht Hi Hids Hnan) as Hq.
  cbv zeta in Hq. rewrite select_mask_negb in Hq. fold kept in Hq.
  do 3 eexists. split; [exact Hq|].
  match type of Hq with _ = (_, ?a, ?b) => set (s1 := a) in *; set (w1 := b) in * end.
  assert (Hcat : heap w1 !! S (length (heap w)) = Some
            {| data := [("Title", select_mask
                            (map (λ v, negb (Py.str_endswith (cell_str v) "delayed")) ids) t);
                        ("Institution", select_mask
                            (map (λ v, negb (Py.str_endswith (cell_str v) "delayed")) ids) i);
                        ("Dataset ID", kept);
                        ("info_url",
                         map (λ id, CStr (get_info_url c id "html")) kept)];
               index_name := index_name d0;
               index := select_mask
                          (map (λ v, negb (Py.str_endswith (cell_str v) "delayed")) ids)
                          (index d0) |}).
  { subst w1. cbn [heap].
    replace (S (length (heap w))) with (length (heap w) + 1) by lia.
    rewrite lookup_app_r by lia.
    replace (length (heap w) + 1 - length (heap w)) with 1 by lia. reflexivity. }
  pose proof (to_pandas_catalog_run s1 w1 (S (length (heap w))) _ kept raw Hid eq_refl
                Hcat eq_refl Hok) as Hrun.
  cbv zeta in Hrun. change (fetcher s1) with c in Hrun. rewrite Hconcat in Hrun.
  do 3 eexists. split; [exact Hrun|]. cbn [heap log].
  split; [now apply list_lookup_middle|].
  split.
  { rewrite <- app_assoc. apply lookup_app_l. subst w1. cbn [heap].
    rewrite length_app. simpl. lia. }
  split; [now rewrite datasets_after_loop|].
  subst w1. cbn [log]. now rewrite <- app_assoc.
Qed.

(** X11: when every id of the search response ends in [delayed], [query]
    without [delayed] stores and returns an empty catalog, and [to_pandas]
    on it raises [ValueError], without any download. *)
Theorem query_all_delayed_then_to_pandas
    (min_lat max_lat min_lon max_lon min_time max_time : bound)
    (self : GliderDataFetcher) (w : World) (body : string) (d0 : DataFrame)
    (t i ids : list cell) :
  let c := set_constraints
             (query_constraints min_lat max_lat min_lon max_lon min_time max_time)
             (fetcher self) in
  let url := get_search_url c "glider" "csv"
               min_lat max_lat min_lon max_lon min_time max_time in
  datasets self = None →
  truth_dataset_id (dataset_id (fetcher self)) = false →
  urlopen url = Ok body →
  read_csv body = Ok d0 →
  wf d0 →
  getitem "Title" d0 = Ok (Series t) →
  getitem "Institution" d0 = Ok (Series i) →
  getitem "Dataset ID" d0 = Ok (Series ids) →
  Forall (λ v, is_nan v = false) ids →
  Forall (λ v, Py.str_endswith (cell_str v) "delayed" = true) ids →
  ∃ r cat s1 w1,
    query min_lat max_lat min_lon max_lon min_time max_time false self w
    = (Ok (Some r), s1, w1)
    ∧ heap w1 !! r = Some cat
    ∧ getitem "Dataset ID" cat = Ok (Series [])
    ∧ ∃ w2, to_pandas s1 w1 = (Raise (ValueError "No objects to concatenate"), s1, w2)
            ∧ heap w2 = heap w1 ∧ log w2 = log w1.
Proof.
  intros c url Hnone Hid Hurl Hcsv Hwf Ht Hi Hids Hnan Hall.
  pose proof (query_run min_lat max_lat min_lon max_lon min_time max_time self w
                body d0 t i ids Hnone Hurl Hcsv Hwf Ht Hi Hids Hnan) as Hq.
  cbv zeta in Hq. rewrite (select_mask_all_delayed ids Hall) in Hq. cbn [map] in Hq.
  do 4 eexists. split; [exact Hq|].
  match type of Hq with _ = (_, ?a, ?b) => set (s1 := a) in *; set (w1 := b) in * end.
  assert (Hcat : heap w1 !! S (length (heap w)) = Some
            {| data := [("Title", select_mask
                            (map (λ v, negb (Py.str_endswith (cell_str v) "delayed")) ids) t);
                        ("Institution", select_mask
                            (map (λ v, negb (Py.str_endswith (cell_str v) "delayed")) ids) i);
                        ("Dataset ID", []);
                        ("info_url", [])];
               index_name := index_name d0;
               index := select_mask
                          (map (λ v, negb (Py.str_endswith (cell_str v) "delayed")) ids)
                          (index d0) |}).
  { subst w1. cbn [heap].
    replace (S (length (heap w))) with (length (heap w) + 1) by lia.
    rewrite lookup_app_r by lia.
    replace (length (heap w) + 1 - length (heap w)) with 1 by lia. reflexivity. }
  split; [exact Hcat|]. split; [reflexivity|].
  pose proof (to_pandas_catalog_run s1 w1 (S (length (heap w))) _ [] [] Hid eq_refl
                Hcat eq_refl ltac:(constructor)) as Hrun.
  cbv zeta in Hrun. cbn [normalised zip_with pd_concat map after_loop fold_left] in Hrun.
  eexists. split; [exact Hrun|]. cbn [heap log]. now rewrite !app_nil_r.
Qed.

End Sessions.

(** ** More on [get_ids], [standardise_df] and construction *)

Section Listing.
Import Pandas Run Frames Services Fetchers.
Context `{Sv : Services}.

Lemma list_remove_first {A : Type} `{EqDecision A} (x : A) (before after : list A) :
  x ∉ before → Py.list_remove x (before ++ x :: after) = Some (before ++ after).
Proof.
  induction before as [|y before IH]; intros Hx; cbn.
  - now rewrite decide_True.
  - rewrite decide_False by (intros ->; apply Hx; left).
    rewrite IH; [reflexivity|]. intros Hin. apply Hx. now right.
Qed.

(** What a returning [get_ids] has seen. *)
Lemma get_ids_inv (self : DatasetList) (w : World) (l : list cell)
    (s' : DatasetList) (w' : World) :
  get_ids self w = (Ok l, s', w') →
  Run.server (e self) = "https://gliders.ioos.us/erddap"
  ∧ ∃ d ids,
      tabledap (set_dataset_id (Some (CStr "allDatasets")) (e self)) None = Ok d
      ∧ getitem "datasetID" d = Ok (Series ids)
      ∧ Py.list_remove (CStr "allDatasets") ids = Some l.
Proof.
  intros Hrun.
  destruct (String.eqb (Run.server (e self)) "https://gliders.ioos.us/erddap") eqn:Es.
  2:{ unfold get_ids, bind, get_self, raise in Hrun. rewrite Es in Hrun. discriminate. }
  apply String.eqb_eq in Es. split; [exact Es|].
  destruct (tabledap (set_dataset_id (Some (CStr "allDatasets")) (e self)) None)
    as [d|err] eqn:Et.
  2:{ unfold get_ids, erddap_to_pandas, bind, get_self, modify_self, emit, lift in Hrun.
      rewrite Es in Hrun. cbn [String.eqb Ascii.eqb Bool.eqb e with_e heap log] in Hrun.
      rewrite Et in Hrun. discriminate. }
  destruct (getitem "datasetID" d) as [[ids|fr]|err] eqn:Eg.
  - rewrite (get_ids_run self w d ids Es Et Eg) in Hrun.
    destruct (Py.list_remove (CStr "allDatasets") ids) as [l'|] eqn:El; [|discriminate].
    injection Hrun as <- _ _. eauto.
  - unfold get_ids, erddap_to_pandas, bind, get_self, modify_self, emit, lift, alloc,
      deref in Hrun.
    rewrite Es in Hrun. cbn [String.eqb Ascii.eqb Bool.eqb e with_e heap log] in Hrun.
    rewrite Et in Hrun. cbn [heap log] in Hrun.
    rewrite list_lookup_middle in Hrun by reflexivity. rewrite Eg in Hrun. discriminate.
  - unfold get_ids, erddap_to_pandas, bind, get_self, modify_self, emit, lift, alloc,
      deref in Hrun.
    rewrite Es in Hrun. cbn [String.eqb Ascii.eqb Bool.eqb e with_e heap log] in Hrun.
    rewrite Et in Hrun. cbn [heap log] in Hrun.
    rewrite list_lookup_middle in Hrun by reflexivity. rewrite Eg in Hrun. discriminate.
Qed.

(** X12: [get_ids] keeps no memory of its answer.  A second call on the
    same object makes a second download of [allDatasets] and, the server
    answering as before, returns the same list and leaves the object as the
    first call left it. *)
Theorem get_ids_twice (self : DatasetList) (w : World) (l : list cell)
    (s1 : DatasetList) (w1 : World) :
  get_ids self w = (Ok l, s1, w1) →
  dataset_ids s1 = Some l
  ∧ log w1 = log w ++ [EvTable (e s1)]
  ∧ ∃ w2, get_ids s1 w1 = (Ok l, s1, w2) ∧ log w2 = log w1 ++ [EvTable (e s1)].
Proof.
  intros Hrun. destruct (get_ids_inv _ _ _ _ _ Hrun) as (Es & d & ids & Et & Eg & El).
  rewrite (get_ids_run self w d ids Es Et Eg), El in Hrun.
  injection Hrun as <- <-. cbn [dataset_ids e with_e set_dataset_ids log].
  split; [reflexivity|]. split; [reflexivity|].
  eexists. split.
  - rewrite (get_ids_run _ _ d ids); [now rewrite El|exact Es|exact Et|exact Eg].
  - reflexivity.
Qed.

(** X13: [get_ids] takes out the first [allDatasets] of the server's list
    and nothing else: the ids before and after it come back in their order,
    later repetitions of the sentinel included. *)
Theorem get_ids_first_occurrence (self : DatasetList) (w : World) (d : DataFrame)
    (before after : list cell) :
  let c := set_dataset_id (Some (CStr "allDatasets")) (e self) in
  Run.server (e self) = "https://gliders.ioos.us/erddap" →
  tabledap c None = Ok d →
  getitem "datasetID" d = Ok (Series (before ++ CStr "allDatasets" :: after)) →
  CStr "allDatasets" ∉ before →
  get_ids self w
  = (Ok (before ++ after),
     {| e := c; dataset_ids := Some (before ++ after) |},
     {| heap := heap w ++ [d]; log := log w ++ [EvTable c] |}).
Proof.
  intros c Hsrv Hd Hids Hfirst.
  rewrite (get_ids_run self w d _ Hsrv Hd Hids).
  now rewrite (list_remove_first _ _ _ Hfirst).
Qed.

(** X14: when the server's list does not hold [allDatasets], [get_ids]
    raises the [ValueError] of [list.remove], after the download; the
    attribute [dataset_ids] keeps what it had. *)
Theorem get_ids_without_sentinel (self : DatasetList) (w : World) (d : DataFrame)
    (ids : list cell) :
  let c := set_dataset_id (Some (CStr "allDatasets")) (e self) in
  Run.server (e self) = "https://gliders.ioos.us/erddap" →
  tabledap c None = Ok d →
  getitem "datasetID" d = Ok (Series ids) →
  CStr "allDatasets" ∉ ids →
  get_ids self w
  = (Raise (ValueError "list.remove(x): x not in list"),
     {| e := c; dataset_ids := dataset_ids self |},
     {| heap := heap w ++ [d]; log := log w ++ [EvTable c] |}).
Proof.
  intros c Hsrv Hd Hids Hno.
  rewrite (get_ids_run self w d _ Hsrv Hd Hids).
  now rewrite (list_remove_None _ _ Hno).
Qed.

(** X15: [standardise_df] keeps the data.  The row labels are as before
    and every column stays at its position with its cells, under its
    lower-cased and renamed label; the one exception is a column whose new
    label is [dataset_url], which is overwritten with the URL. *)
Theorem standardise_df_keeps_data {St : Type} (df : ref) (url : string) (s : St)
    (w : World) (d : DataFrame) :
  heap w !! df = Some d →
  ∃ out w',
    standardise_df df url s w = (Ok df, s, w')
    ∧ heap w' !! df = Some out
    ∧ index out = index d
    ∧ index_name out = Some "time"
    ∧ ∀ j c, data d !! j = Some c →
        data out !! j
        = Some (output_label (fst c),
                if decide (output_label (fst c) = "dataset_url")
                then replicate (nrows d) (CStr url) else snd c).
Proof.
  intros Hd. exists (standardise url d). eexists.
  split; [apply (standardise_df_run _ _ _ _ _ Hd)|]. cbn [heap].
  split; [apply list_lookup_insert_eq; eapply lookup_lt_Some, Hd|].
  split; [reflexivity|]. split; [reflexivity|].
  intros j c Hj. rewrite standardise_unfold. unfold setitem_scalar, setitem.
  cbn [data rename_index relabel]. change (nrows _) with (nrows d).
  assert (Hrel : map (λ c, (output_label (fst c), snd c)) (data d) !! j
                 = Some (output_label (fst c), snd c)).
  { change (((λ c, (output_label (fst c), snd c)) <$> data d) !! j
            = Some (output_label (fst c), snd c)).
    now rewrite list_lookup_fmap, Hj. }
  destruct (has_column "dataset_url" _) eqn:Ehas.
  - unfold overwrite.
    change ((λ c, if String.eqb (fst c) "dataset_url" then (fst c, replicate (nrows d) (CStr url)) else c)
              <$> map (λ c, (output_label (fst c), snd c)) (data d)) with
      ((λ c : string * list cell,
          if String.eqb (fst c) "dataset_url"
          then (fst c, replicate (nrows d) (CStr url)) else c)
         <$> map (λ c, (output_label (fst c), snd c)) (data d)).
    rewrite list_lookup_fmap, Hrel. cbn [fmap option_fmap option_map fst snd].
    destruct (decide (output_label (fst c) = "dataset_url")) as [E|E].
    + now rewrite E.
    + apply String.eqb_neq in E. now rewrite E.
  - rewrite lookup_app_l by (rewrite length_map; eapply lookup_lt_Some, Hj).
    rewrite Hrel. apply has_column_false in Ehas. rewrite decide_False; [reflexivity|].
    intros E. apply Ehas. unfold columns. cbn [data rename_index relabel].
    apply list_elem_of_fmap. exists (output_label (fst c), snd c). split; [now rewrite E|].
    eapply list_elem_of_lookup_2, Hrel.
Qed.

(** X16: constructing a fetcher needs a server that [server_vars] knows:
    for any other server the constructor raises [KeyError].  For a known
    server the new fetcher has that server's variables, no active dataset
    id and no catalog, so [to_pandas] on it raises [ValueError] before any
    request. *)
Theorem init_then_to_pandas (srv : string) (w : World) :
  match server_vars !! srv with
  | None => GliderDataFetcher_init srv = Raise (KeyError srv)
  | Some vars =>
      ∃ self,
        GliderDataFetcher_init srv = Ok self
        ∧ server self = srv
        ∧ fetcher self = {| Run.server := srv; protocol := "tabledap";
                            variables := Some vars; dataset_id := None;
                            constraints := None |}
        ∧ datasets self = None
        ∧ to_pandas self w
          = (Raise (ValueError "Must provide a None or `query` terms to download data."),
             self, w)
  end.
Proof.
  unfold GliderDataFetcher_init. destruct (server_vars !! srv) as [vars|]; [|reflexivity].
  eexists. split; [reflexivity|]. repeat split.
Qed.

(** X17: a search that failed is tried again.  After [query] has raised
    for an HTTP error, the next [query] with the same bounds sends the
    search request once more. *)
Theorem query_retries_after_failure
    (min_lat max_lat min_lon max_lon min_time max_time : bound)
    (delayed : bool) (self : GliderDataFetcher) (w : World) (msg : string) :
  let c := set_constraints
             (query_constraints min_lat max_lat min_lon max_lon min_time max_time)
             (fetcher self) in
  let url := get_search_url c "glider" "csv"
               min_lat max_lat min_lon max_lon min_time max_time in
  datasets self = None →
  urlopen url = Raise (HTTPError msg) →
  ∃ e1 s1 w1 e2 w2,
    query min_lat max_lat min_lon max_lon min_time max_time delayed self w
    = (Raise e1, s1, w1)
    ∧ log w1 = log w ++ [EvSearch url]
    ∧ query min_lat max_lat min_lon max_lon min_time max_time delayed s1 w1
      = (Raise e2, s1, w2)
    ∧ log w2 = log w ++ [EvSearch url; EvSearch url].
Proof.
  intros c url Hnone Hurl. subst url c.
  do 5 eexists. split; [|split; [|split]].
  - unfold query, bind, modify_self, get_self, lift, try_except_http, emit, raise.
    simpl. rewrite Hnone. simpl. rewrite Hurl. reflexivity.
  - reflexivity.
  - unfold query, bind, modify_self, get_self, lift, try_except_http, emit, raise.
    simpl. rewrite Hnone. simpl.
    match goal with
    | |- context [urlopen ?u] => rewrite (Hurl : urlopen u = Raise (HTTPError msg))
    end.
    reflexivity.
  - cbn [log]. now rewrite <- app_assoc.
Qed.

End Listing.

(** ** The further properties on the sample world *)

Section MoreOnSample.
Import Pandas Run Frames Services Fetchers Sample.

Lemma answer_wf (c : ERDDAP) (i : option string) (d : DataFrame) :
  answer c i = Ok d → wf d.
Proof.
  unfold answer. destruct (dataset_id c) as [[id|]|]; try discriminate.
  destruct (String.eqb id "ru29-2020"); [intros [= <-]; repeat constructor|].
  destruct (String.eqb id "ng314-2020"); [intros [= <-]; repeat constructor|].
  destruct (String.eqb id "allDatasets"); [intros [= <-]; repeat constructor|].
  discriminate.
Qed.

Lemma to_pandas_active_id_witness :
  ∃ w', log w' = log empty_world ++ [EvTable (fetcher (active "ru29-2020"))]
    ∧ (∀ r, r < length (heap empty_world) → heap w' !! r = heap empty_world !! r)
    ∧ @to_pandas online (active "ru29-2020") empty_world
      = (Ok 0, active "ru29-2020", w')
    ∧ heap w' !! 0 = Some standard_ru29.
Proof.
  apply (@to_pandas_active_id online (active "ru29-2020") empty_world).
  reflexivity.
Defined.

Lemma to_pandas_failed_download_witness :
  let w := {| heap := [catalog_gap]; log := [] |} in
  ∃ s' w',
    @to_pandas online queried w = (Raise (HTTPError "404 Not Found"), s', w')
    ∧ dataset_id (fetcher s') = Some (CStr "gone-2019")
    ∧ datasets s' = Some 0
    ∧ heap w' = [catalog_gap; standard_ru29]
    ∧ log w' = map (λ id, EvTable (set_dataset_id (Some id) (fetcher queried)))
                   [CStr "ru29-2020"; CStr "gone-2019"].
Proof.
  apply (@to_pandas_failed_download online queried {| heap := [catalog_gap]; log := [] |}
           0 catalog_gap [CStr "ru29-2020"] (CStr "gone-2019") [CStr "ng314-2020"]
           [table_ru29] (HTTPError "404 Not Found")).
  - reflexivity.
  - reflexivity.
  - reflexivity.
  - reflexivity.
  - repeat constructor.
  - reflexivity.
Defined.

Lemma to_pandas_second_call_witness :
  let w := {| heap := [catalog]; log := [] |} in
  ∃ r1 s1 w1,
    @to_pandas online queried w = (Ok r1, s1, w1)
    ∧ heap w1 !! r1 = Some concatenated
    ∧ fetcher s1 = set_dataset_id (Some (CStr "ng314-2020")) (fetcher queried)
    ∧ ∃ r2 w2,
        @to_pandas online s1 w1 = (Ok r2, s1, w2)
        ∧ heap w2 !! r2 = Some standard_ng314
        ∧ log w2 = log w1 ++ [EvTable (set_dataset_id (Some (CStr "ng314-2020"))
                                         (fetcher queried))].
Proof.
  apply (@to_pandas_second_call online queried {| heap := [catalog]; log := [] |}
           0 catalog [CStr "ru29-2020"] (CStr "ng314-2020") [table_ru29]
           table_ng314 concatenated).
  - reflexivity.
  - reflexivity.
  - reflexivity.
  - reflexivity.
  - repeat constructor.
  - reflexivity.
  - vm_compute. reflexivity.
  - reflexivity.
Defined.

Lemma to_pandas_single_entry_witness :
  let w := {| heap := [catalog_one]; log := [] |} in
  let self' := with_fetcher (set_dataset_id (Some (CStr "ng314-2020"))) queried in
  (∃ r w1, @to_pandas online queried w = (Ok r, self', w1)
           ∧ heap w1 !! r = Some standard_ng314)
  ∧ (∃ r w2, @to_pandas online self' w = (Ok r, self', w2)
             ∧ heap w2 !! r = Some standard_ng314).
Proof.
  apply (@to_pandas_single_entry online queried {| heap := [catalog_one]; log := [] |}
           0 catalog_one (CStr "ng314-2020") table_ng314).
  - reflexivity.
  - reflexivity.
  - reflexivity.
  - reflexivity.
  - reflexivity.
  - reflexivity.
Defined.

Lemma to_pandas_provenance_witness :
  let w := {| heap := [catalog]; log := [] |} in
  let ids := [CStr "ru29-2020"; CStr "ng314-2020"] in
  let raw := [table_ru29; table_ng314] in
  ∃ r s' w',
    @to_pandas online queried w = (Ok r, s', w')
    ∧ heap w' !! r = Some concatenated
    ∧ index_name concatenated = Some "time"
    ∧ (∀ k id t i,
         ids !! k = Some id → raw !! k = Some t → i < nrows t →
         cell_at concatenated "dataset_url" (sum_list (map nrows (take k raw)) + i)
         = Some (CStr (@dataset_url_of online (fetcher queried) id))).
Proof.
  apply (@to_pandas_provenance online queried {| heap := [catalog]; log := [] |} 0 catalog
           [CStr "ru29-2020"; CStr "ng314-2020"] [table_ru29; table_ng314] concatenated).
  - reflexivity.
  - reflexivity.
  - reflexivity.
  - reflexivity.
  - repeat constructor.
  - unfold wf. repeat constructor.
  - vm_compute. reflexivity.
Defined.

Lemma to_pandas_returns_wf_witness :
  let out := @to_pandas online queried {| heap := [catalog]; log := [] |} in
  (1 ≤ 3)%nat ∧ ∃ table, heap (snd out) !! 3 = Some table ∧ wf table.
Proof.
  intros out.
  apply (@to_pandas_returns_wf online queried {| heap := [catalog]; log := [] |} 3
           (snd (fst out)) (snd out)).
  - exact answer_wf.
  - reflexivity.
Defined.

Lemma query_frame_witness :
  let qc := query_constraints (b "30") (b "35") (b "-75") (b "-70")
              (b "'2020-01-01'") (b "'2020-02-01'") in
  let url := search_url (set_constraints qc (fetcher fresh)) "glider" "csv"
               (b "30") (b "35") (b "-75") (b "-70")
               (b "'2020-01-01'") (b "'2020-02-01'") in
  let out := @query online (b "30") (b "35") (b "-75") (b "-70")
               (b "'2020-01-01'") (b "'2020-02-01'") false fresh empty_world in
  fetcher (snd (fst out)) = set_constraints qc (fetcher fresh)
  ∧ server (snd (fst out)) = server fresh
  ∧ (∃ new, heap (snd out) = heap empty_world ++ new)
  ∧ (log (snd out) = log empty_world ∨ log (snd out) = log empty_world ++ [EvSearch url])
  ∧ (Some 1 = datasets (snd (fst out)) ∧ is_Some (Some 1) ∧ datasets fresh = None).
Proof.
  intros qc url out.
  apply (@query_frame online (b "30") (b "35") (b "-75") (b "-70")
           (b "'2020-01-01'") (b "'2020-02-01'") false fresh empty_world
           (Ok (Some 1)) (snd (fst out)) (snd out)).
  reflexivity.
Defined.

Lemma query_other_errors_witness :
  let sv := searching (Ok "") (Raise (OtherError "EmptyDataError")) in
  let self1 := with_fetcher (set_constraints
                 (query_constraints (b "30") (b "35") (b "-75") (b "-70")
                    (b "'2020-01-01'") (b "'2020-02-01'"))) fresh in
  let url := search_url (fetcher self1) "glider" "csv" (b "30") (b "35") (b "-75")
               (b "-70") (b "'2020-01-01'") (b "'2020-02-01'") in
  @query sv (b "30") (b "35") (b "-75") (b "-70")
    (b "'2020-01-01'") (b "'2020-02-01'") false fresh empty_world
  = (Raise (OtherError "EmptyDataError"), set_query_url url self1,
     {| heap := heap empty_world; log := log empty_world ++ [EvSearch url] |}).
Proof.
  apply (@query_other_errors (searching (Ok "") (Raise (OtherError "EmptyDataError")))
           (b "30") (b "35") (b "-75") (b "-70")
           (b "'2020-01-01'") (b "'2020-02-01'") false fresh empty_world
           (OtherError "EmptyDataError")).
  - reflexivity.
  - right. exists "". split; reflexivity.
Defined.


Lemma query_then_to_pandas_witness :
  let c := set_constraints
             (query_constraints (b "30") (b "35") (b "-75") (b "-70")
                (b "'2020-01-01'") (b "'2020-02-01'"))
             (fetcher fresh) in
  let url := search_url c "glider" "csv" (b "30") (b "35") (b "-75") (b "-70")
               (b "'2020-01-01'") (b "'2020-02-01'") in
  ∃ r s1 w1,
    @query online (b "30") (b "35") (b "-75") (b "-70")
      (b "'2020-01-01'") (b "'2020-02-01'") false fresh empty_world
    = (Ok (Some r), s1, w1)
    ∧ ∃ r2 s2 w2,
        @to_pandas online s1 w1 = (Ok r2, s2, w2)
        ∧ heap w2 !! r2 = Some concatenated
        ∧ heap w2 !! r = heap w1 !! r
        ∧ datasets s2 = Some r
        ∧ log w2 = log empty_world ++ EvSearch url
                     :: map (λ id, EvTable (set_dataset_id (Some id) c))
                            [CStr "ru29-2020"; CStr "ng314-2020"].
Proof.
  apply (@query_then_to_pandas online (b "30") (b "35") (b "-75") (b "-70")
           (b "'2020-01-01'") (b "'2020-02-01'") fresh empty_world
           "griddap,Title,Institution,Dataset ID" search_table
           [CStr "ru29"; CStr "ru29 (delayed)"; CStr "ng314"]
           [CStr "Rutgers"; CStr "Rutgers"; CStr "Navy"]
           [CStr "ru29-2020"; CStr "ru29-2020-delayed"; CStr "ng314-2020"]
           [table_ru29; table_ng314] concatenated).
  - reflexivity.
  - reflexivity.
  - reflexivity.
  - reflexivity.
  - unfold wf. simpl. repeat constructor.
  - reflexivity.
  - reflexivity.
  - reflexivity.
  - repeat constructor.
  - vm_compute. repeat constructor.
  - vm_compute. reflexivity.
Defined.

Lemma query_all_delayed_then_to_pandas_witness :
  let sv := searching (Ok "Title,Institution,Dataset ID") (Ok search_table_delayed) in
  ∃ r cat s1 w1,
    @query sv (b "30") (b "35") (b "-75") (b "-70")
      (b "'2020-01-01'") (b "'2020-02-01'") false fresh empty_world
    = (Ok (Some r), s1, w1)
    ∧ heap w1 !! r = Some cat
    ∧ getitem "Dataset ID" cat = Ok (Series [])
    ∧ ∃ w2, @to_pandas sv s1 w1 = (Raise (ValueError "No objects to concatenate"), s1, w2)
            ∧ heap w2 = heap w1 ∧ log w2 = log w1.
Proof.
  apply (@query_all_delayed_then_to_pandas
           (searching (Ok "Title,Institution,Dataset ID") (Ok search_table_delayed))
           (b "30") (b "35") (b "-75") (b "-70")
           (b "'2020-01-01'") (b "'2020-02-01'") fresh empty_world
           "Title,Institution,Dataset ID" search_table_delayed
           [CStr "ru29 (delayed)"; CStr "ng314 (delayed)"]
           [CStr "Rutgers"; CStr "Navy"]
           [CStr "ru29-2020-delayed"; CStr "ng314-2020-delayed"]).
  - reflexivity.
  - reflexivity.
  - reflexivity.
  - reflexivity.
  - unfold wf. simpl. repeat constructor.
  - reflexivity.
  - reflexivity.
  - reflexivity.
  - repeat constructor.
  - repeat constructor.
Defined.

Lemma get_ids_twice_witness :
  let out := @get_ids online (DatasetList_init _server) empty_world in
  let l := [CStr "ru29-2020"; CStr "ng314-2020"] in
  dataset_ids (snd (fst out)) = Some l
  ∧ log (snd out) = log empty_world ++ [EvTable (e (snd (fst out)))]
  ∧ ∃ w2, @get_ids online (snd (fst out)) (snd out) = (Ok l, snd (fst out), w2)
          ∧ log w2 = log (snd out) ++ [EvTable (e (snd (fst out)))].
Proof.
  intros out l.
  apply (@get_ids_twice online (DatasetList_init _server) empty_world l
           (snd (fst out)) (snd out)).
  reflexivity.
Defined.

Lemma get_ids_first_occurrence_witness :
  let ids := [CStr "ru29-2020"; CStr "allDatasets"; CStr "ng314-2020"; CStr "allDatasets"] in
  let c := set_dataset_id (Some (CStr "allDatasets")) (e (DatasetList_init _server)) in
  let d := {| data := [("datasetID", ids)]; index_name := None;
              index := [""; ""; ""; ""] |} in
  @get_ids (listing ids) (DatasetList_init _server) empty_world
  = (Ok [CStr "ru29-2020"; CStr "ng314-2020"; CStr "allDatasets"],
     {| e := c;
        dataset_ids := Some [CStr "ru29-2020"; CStr "ng314-2020"; CStr "allDatasets"] |},
     {| heap := heap empty_world ++ [d]; log := log empty_world ++ [EvTable c] |}).
Proof.
  apply (@get_ids_first_occurrence
           (listing [CStr "ru29-2020"; CStr "allDatasets"; CStr "ng314-2020";
                     CStr "allDatasets"])
           (DatasetList_init _server) empty_world
           {| data := [("datasetID",
                        [CStr "ru29-2020"; CStr "allDatasets"; CStr "ng314-2020";
                         CStr "allDatasets"])];
              index_name := None; index := [""; ""; ""; ""] |}
           [CStr "ru29-2020"] [CStr "ng314-2020"; CStr "allDatasets"]).
  - reflexivity.
  - reflexivity.
  - reflexivity.
  - apply (bool_decide_unpack _). vm_compute. exact I.
Defined.

Lemma get_ids_without_sentinel_witness :
  let ids := [CStr "ru29-2020"; CStr "ng314-2020"] in
  let c := set_dataset_id (Some (CStr "allDatasets")) (e (DatasetList_init _server)) in
  let d := {| data := [("datasetID", ids)]; index_name := None; index := [""; ""] |} in
  @get_ids (listing ids) (DatasetList_init _server) empty_world
  = (Raise (ValueError "list.remove(x): x not in list"),
     {| e := c; dataset_ids := None |},
     {| heap := heap empty_world ++ [d]; log := log empty_world ++ [EvTable c] |}).
Proof.
  apply (@get_ids_without_sentinel (listing [CStr "ru29-2020"; CStr "ng314-2020"])
           (DatasetList_init _server) empty_world
           {| data := [("datasetID", [CStr "ru29-2020"; CStr "ng314-2020"])];
              index_name := None; index := [""; ""] |}
           [CStr "ru29-2020"; CStr "ng314-2020"]).
  - reflexivity.
  - reflexivity.
  - reflexivity.
  - apply (bool_decide_unpack _). vm_compute. exact I.
Defined.

Lemma standardise_df_keeps_data_witness :
  let w := {| heap := [table_tagged]; log := [] |} in
  ∃ out w',
    @standardise_df online unit 0 url_ru29 tt w = (Ok 0, tt, w')
    ∧ heap w' !! 0 = Some out
    ∧ index out = index table_tagged
    ∧ index_name out = Some "time"
    ∧ ∀ j c, data table_tagged !! j = Some c →
        data out !! j
        = Some (@output_label online (fst c),
                if decide (@output_label online (fst c) = "dataset_url")
                then replicate (nrows table_tagged) (CStr url_ru29) else snd c).
Proof.
  apply (@standardise_df_keeps_data online unit 0 url_ru29 tt
           {| heap := [table_tagged]; log := [] |} table_tagged).
  reflexivity.
Defined.

Lemma query_retries_after_failure_witness :
  let c := set_constraints
             (query_constraints (b "30") (b "35") (b "-75") (b "-70")
                (b "'2020-01-01'") (b "'2020-02-01'"))
             (fetcher fresh) in
  let url := search_url c "glider" "csv" (b "30") (b "35") (b "-75") (b "-70")
               (b "'2020-01-01'") (b "'2020-02-01'") in
  ∃ e1 s1 w1 e2 w2,
    @query offline (b "30") (b "35") (b "-75") (b "-70")
      (b "'2020-01-01'") (b "'2020-02-01'") false fresh empty_world
    = (Raise e1, s1, w1)
    ∧ log w1 = log empty_world ++ [EvSearch url]
    ∧ @query offline (b "30") (b "35") (b "-75") (b "-70")
        (b "'2020-01-01'") (b "'2020-02-01'") false s1 w1
      = (Raise e2, s1, w2)
    ∧ log w2 = log empty_world ++ [EvSearch url; EvSearch url].
Proof.
  apply (@query_retries_after_failure offline (b "30") (b "35") (b "-75") (b "-70")
           (b "'2020-01-01'") (b "'2020-02-01'") false fresh empty_world
           "500 Internal Server Error").
  - reflexivity.
  - reflexivity.
Defined.

(** The overwritten column of [table_tagged]. *)
Example standardise_overwrites_tagged :
  @standardise online url_ru29 table_tagged
  = {| data := [ ("dataset_url", [CStr url_ru29]); ("pressure", [CStr "3.0"]) ];
       index_name := Some "time";
       index := ["2020-03-01T00:00:00Z"] |}.
Proof. reflexivity. Qed.

End MoreOnSample.
